(** * simple_hl_bot: a shallow embedding of the Donchian breakout bot

    Source: [src/simple_hyperliquid_bot/simple_hl_bot.py].

    Modelling conventions.
    - Python floats are the rationals [Q] (every finite double is one); the
      comparisons, [min], [max], [int] and the decimal rounding of [round]
      are the exact operations on them. The arithmetic of the functions is
      written exactly where only the control flow and the requests are at
      stake; the part on binary64 arithmetic gives the rounding of every
      operation ([b64]) and, with it, the two computations whose digits
      matter, the exit prices and the sizing. The statements about computed
      values are made on those.
    - A Python exception is a value of [exn]; a computation that may raise
      returns [res].
    - The exchange is an oracle ([exchange]) answering each request from the
      requests made so far; the requests are logged in [calls], so that
      "which orders were submitted" is a statement about the log.
    - [print] has no effect on any value and is left out. *)

From Stdlib Require Import ZArith QArith Qround Qpower Lqa List String Bool Lia.
Import ListNotations.

Local Open Scope string_scope.
Local Open Scope list_scope.
Local Open Scope Q_scope.

(** ** Exceptions and results *)

Inductive exn : Type :=
| ValueError (msg : string)
| KeyError (key : string)
| IndexError
| TypeError
| ZeroDivisionError
| UnboundLocalError (name : string)
| ExchangeError (msg : string).

Inductive res (A : Type) : Type :=
| Ok (a : A)
| Raise (e : exn).
Arguments Ok {A} a.
Arguments Raise {A} e.

(** ** Numbers as Python computes with them *)

Definition Qltb (x y : Q) : bool := negb (Qle_bool y x).

(** [int(x)] on a float: truncation towards zero. *)
Definition py_int (x : Q) : Z := Z.quot (Qnum x) (Zpos (Qden x)).

(** Round half to even, the rule of [round] on floats. *)
Definition round_half_even (x : Q) : Z :=
  let f := Qfloor x in
  match Qcompare (x - inject_Z f) (1 # 2) with
  | Lt => f
  | Gt => (f + 1)%Z
  | Eq => if Z.even f then f else (f + 1)%Z
  end.

Definition pow10 (n : Z) : Q := inject_Z (10 ^ n).

(** [round(x, ndigits)]. *)
Definition py_round (x : Q) (ndigits : Z) : Q :=
  if (0 <=? ndigits)%Z
  then inject_Z (round_half_even (x * pow10 ndigits)) / pow10 ndigits
  else inject_Z (round_half_even (x / pow10 (- ndigits))) * pow10 (- ndigits).

(** [x / y] on floats raises on a zero divisor. *)
Definition py_div (x y : Q) : res Q :=
  if Qeq_bool y 0 then Raise ZeroDivisionError else Ok (x / y).

(** [min(xs)] and [max(xs)]: the first extremal element, [ValueError] on an
    empty sequence. *)
Definition py_min (xs : list Q) : res Q :=
  match xs with
  | [] => Raise (ValueError "min() arg is an empty sequence")
  | x :: rest => Ok (fold_left (fun m y => if Qltb y m then y else m) rest x)
  end.

Definition py_max (xs : list Q) : res Q :=
  match xs with
  | [] => Raise (ValueError "max() arg is an empty sequence")
  | x :: rest => Ok (fold_left (fun m y => if Qltb m y then y else m) rest x)
  end.

(** ** Risk management parameters (the module's globals) *)

Record config : Type := {
  MAX_LEVERAGE : Q;
  RISK_PER_TRADE_PERCENT : Q;
  RISK_REWARD_RATIO : Q;
  STOP_LOSS_PERCENT : Q;
  DON_MAX_PERIOD : nat;
  REQUEST_INTERVAL_SECONDS : nat
}.

Definition TAKE_PROFIT_PERCENT (cfg : config) : Q :=
  STOP_LOSS_PERCENT cfg * RISK_REWARD_RATIO cfg.

(** The values written in the source. *)
Definition source_config : config := {|
  MAX_LEVERAGE := 50;
  RISK_PER_TRADE_PERCENT := 2;
  RISK_REWARD_RATIO := 2;
  STOP_LOSS_PERCENT := 1;
  DON_MAX_PERIOD := 12;
  REQUEST_INTERVAL_SECONDS := 30
|}.

(** ** [collections.deque(maxlen=...)] *)

Record deque : Type := { maxlen : nat; items : list Q }.

Definition deque_new (n : nat) : deque := {| maxlen := n; items := [] |}.

Definition len (d : deque) : nat := List.length (items d).

(** [d.append(x)]: add on the right, then drop from the left when the bound
    is exceeded. *)
Definition append (d : deque) (x : Q) : deque :=
  let l := items d ++ [x] in
  {| maxlen := maxlen d;
     items := if (maxlen d <? List.length l)%nat then tl l else l |}.

Definition clear (d : deque) : deque := {| maxlen := maxlen d; items := [] |}.

(** ** Data exchanged with the exchange client *)

Record asset_info : Type := { name : string; szDecimals : Z }.

(** One entry of [order['response']['data']['statuses']]. *)
Inductive order_status : Type :=
| Filled (avgPx : Q)
| Resting
| WaitingForTrigger
| StatusError (msg : string).

(** An order response: [statuses = None] stands for a response without the
    ['response'], ['data'] or ['statuses'] key. *)
Record order_result : Type := {
  status : string;
  statuses : option (list order_status)
}.

Record position : Type := {
  coin : string;
  szi : Q;
  entryPx : Q;
  liquidationPx : option Q
}.

Record user_state : Type := {
  accountValue : Q;
  assetPositions : list position
}.

(** The trigger part of [client.order]'s [order_type]. *)
Record trigger : Type := { triggerPx : Z; isMarket : bool; tpsl : string }.

Inductive call : Type :=
| CMeta
| CUserState (address : string)
| CAllMids
| CMarketOpen (asset : string) (is_buy : bool) (sz : Q)
| COrder (asset : string) (is_buy : bool) (sz : Q) (limit_px : Z)
         (reduce_only : bool) (order_type : trigger)
| CSleep (seconds : nat).

(** The exchange answers a request knowing the requests made before it; an
    answer may be an exception raised by the client. *)
Record exchange : Type := {
  meta : list call -> res (list asset_info);
  get_user_state : list call -> string -> res user_state;
  all_mids : list call -> res (list (string * Q));
  market_open : list call -> string -> bool -> Q -> res order_result;
  order : list call -> string -> bool -> Q -> Z -> bool -> trigger ->
          res order_result
}.

(** ** State and error monad *)

Record world : Type := { calls : list call; last_prices : deque }.

Definition M (A : Type) : Type := world -> res A * world.

Definition ret {A} (a : A) : M A := fun w => (Ok a, w).

Definition raise {A} (e : exn) : M A := fun w => (Raise e, w).

Definition bind {A B} (m : M A) (k : A -> M B) : M B :=
  fun w => match m w with
           | (Ok a, w') => k a w'
           | (Raise e, w') => (Raise e, w')
           end.

Definition lift {A} (r : res A) : M A := fun w => (r, w).

(** [try: body / except Exception as e: handler e]. *)
Definition try_except {A} (body : M A) (handler : exn -> M A) : M A :=
  fun w => match body w with
           | (Ok a, w') => (Ok a, w')
           | (Raise e, w') => handler e w'
           end.

Notation "x <- m ;; k" := (bind m (fun x => k))
  (at level 61, m at next level, right associativity).
Notation "m ;;; k" := (bind m (fun _ => k))
  (at level 61, right associativity).

Definition log (c : call) (w : world) : world :=
  {| calls := calls w ++ [c]; last_prices := last_prices w |}.

Definition get_prices : M deque := fun w => (Ok (last_prices w), w).

Definition set_prices (d : deque) : M unit :=
  fun w => (Ok tt, {| calls := calls w; last_prices := d |}).

Definition sleep (seconds : nat) : M unit :=
  fun w => (Ok tt, log (CSleep seconds) w).

Definition index0 {A} (l : list A) : res A :=
  match l with
  | [] => Raise IndexError
  | x :: _ => Ok x
  end.

Section Bot.

Variable cfg : config.
Variable client : exchange.

(** ** [get_market_info] *)
Definition get_market_info (asset : string) : M asset_info :=
  fun w =>
    (match meta client (calls w) with
     | Raise e => Raise e
     | Ok universe =>
         match find (fun m => String.eqb (name m) asset) universe with
         | None => Raise (ValueError "Asset not found")
         | Some asset_info => Ok asset_info
         end
     end, log CMeta w).

(** ** [calculate_position_size]

    [sizing_try] is the body of the [try]; its second component is the
    binding of the local [min_position_size] when the block is left. The
    arithmetic is exact here; [calculate_position_size_binary64], further
    down, is the same function with every operation rounded. *)
Definition sizing_try (balance current_price : Q) : res Q * option Q :=
  let risk_amount := balance * (RISK_PER_TRADE_PERCENT cfg / 100) in
  if Qeq_bool (STOP_LOSS_PERCENT cfg) 0
  then (Raise (ValueError "STOP_LOSS_PERCENT cannot be 0"), None)
  else if Qeq_bool current_price 0
  then (Raise (ValueError "Current price cannot be 0"), None)
  else
    match py_div risk_amount (current_price * STOP_LOSS_PERCENT cfg / 100) with
    | Raise e => (Raise e, None)
    | Ok position_size =>
        let min_position_size := 1 # 1000 in
        let position_size :=
          if Qltb position_size min_position_size
          then min_position_size else position_size in
        (Ok (py_round position_size 5), Some min_position_size)
    end.

Definition calculate_position_size (balance current_price : Q) : res Q :=
  match sizing_try balance current_price with
  | (Ok size, _) => Ok size
  | (Raise _, Some min_position_size) => Ok min_position_size
  | (Raise _, None) => Raise (UnboundLocalError "min_position_size")
  end.

(** ** [place_stop_loss] and [place_take_profit] *)
Definition submit_order (asset : string) (is_buy : bool) (sz : Q) (px : Z)
    (reduce_only : bool) (t : trigger) : M order_result :=
  fun w => (order client (calls w) asset is_buy sz px reduce_only t,
            log (COrder asset is_buy sz px reduce_only t) w).

Definition check_trigger_reply (label errlabel : string) (o : order_result)
  : res order_result :=
  if negb (String.eqb (status o) "ok") then Raise (ValueError label)
  else match statuses o with
       | None => Raise (KeyError "response")
       | Some sts =>
           match index0 sts with
           | Raise e => Raise e
           | Ok (StatusError _) => Raise (ValueError errlabel)
           | Ok _ => Ok o
           end
       end.

Definition place_stop_loss (asset : string) (position_size : Q)
    (stop_price : Z) (is_buy : bool) : M order_result :=
  o <- submit_order asset is_buy position_size stop_price true
         {| triggerPx := stop_price; isMarket := true; tpsl := "sl" |} ;;
  lift (check_trigger_reply "Failed to place stop loss order"
                            "Stop loss order error" o).

Definition place_take_profit (asset : string) (position_size : Q)
    (take_profit_price : Z) (is_buy : bool) : M order_result :=
  o <- submit_order asset is_buy position_size take_profit_price true
         {| triggerPx := take_profit_price; isMarket := true; tpsl := "tp" |} ;;
  lift (check_trigger_reply "Failed to place take profit order"
                            "Take profit order error" o).

(** ** [buy] and [sell]

    The exit prices are truncations of exact products here;
    [exit_prices_binary64], further down, rounds every operation. *)
Definition submit_market_open (asset : string) (is_buy : bool) (sz : Q)
  : M order_result :=
  fun w => (market_open client (calls w) asset is_buy sz,
            log (CMarketOpen asset is_buy sz) w).

(** [int(float(order['response']['data']['statuses'][0]['filled']['avgPx']))]
    after the two checks on the response. *)
Definition entry_price_of (o : order_result) : res Z :=
  if negb (String.eqb (status o) "ok")
  then Raise (ValueError "Market order failed")
  else match statuses o with
       | None => Raise (ValueError "Unexpected order response format")
       | Some sts =>
           match index0 sts with
           | Raise e => Raise e
           | Ok (Filled avgPx) => Ok (py_int avgPx)
           | Ok WaitingForTrigger => Raise TypeError
           | Ok _ => Raise (KeyError "filled")
           end
       end.

Definition buy (asset : string) (position_size : Q) : M bool :=
  try_except
    (market_info <- get_market_info asset ;;
     let sz_decimals := szDecimals market_info in
     (if Qle_bool position_size 0
      then raise (ValueError "Position size must be positive")
      else ret tt) ;;;
     let position_size := py_round position_size sz_decimals in
     order <- submit_market_open asset true position_size ;;
     entry_price <- lift (entry_price_of order) ;;
     let stop_loss_price :=
       py_int (inject_Z entry_price * (1 - STOP_LOSS_PERCENT cfg / 100)) in
     let take_profit_price :=
       py_int (inject_Z entry_price * (1 + TAKE_PROFIT_PERCENT cfg / 100)) in
     place_stop_loss asset position_size stop_loss_price false ;;;
     place_take_profit asset position_size take_profit_price false ;;;
     ret true)
    (fun _ => ret false).

Definition sell (asset : string) (position_size : Q) : M bool :=
  try_except
    (market_info <- get_market_info asset ;;
     let sz_decimals := szDecimals market_info in
     (if Qle_bool position_size 0
      then raise (ValueError "Position size must be positive")
      else ret tt) ;;;
     let position_size := py_round position_size sz_decimals in
     order <- submit_market_open asset false position_size ;;
     entry_price <- lift (entry_price_of order) ;;
     let stop_loss_price :=
       py_int (inject_Z entry_price * (1 + STOP_LOSS_PERCENT cfg / 100)) in
     place_stop_loss asset position_size stop_loss_price true ;;;
     let take_profit_price :=
       py_int (inject_Z entry_price * (1 - TAKE_PROFIT_PERCENT cfg / 100)) in
     place_take_profit asset position_size take_profit_price true ;;;
     ret true)
    (fun _ => ret false).

(** ** [run_trading_strategy] *)
Definition fetch_user_state (address : string) : M user_state :=
  fun w => (get_user_state client (calls w) address,
            log (CUserState address) w).

Definition fetch_all_mids : M (list (string * Q)) :=
  fun w => (all_mids client (calls w), log CAllMids w).

(** [response[asset]] *)
Definition lookup_mid (asset : string) (response : list (string * Q)) : res Q :=
  match find (fun kv => String.eqb (fst kv) asset) response with
  | None => Raise (KeyError asset)
  | Some kv => Ok (snd kv)
  end.

(** [last_prices.clear()] and [last_prices.append(x)] on the shared deque. *)
Definition clear_prices : M unit :=
  fun w => (Ok tt, {| calls := calls w; last_prices := clear (last_prices w) |}).

Definition append_price (x : Q) : M unit :=
  fun w => (Ok tt,
            {| calls := calls w; last_prices := append (last_prices w) x |}).

(** [position and float(position['position']['szi']) != 0] *)
Definition has_open_position (position : option position) : bool :=
  match position with
  | None => false
  | Some p => negb (Qeq_bool (szi p) 0)
  end.

(** The part of [run_trading_strategy] below the open-position report:
    from the test on [len(last_prices)] to the final [append]. *)
Definition breakout_step (asset : string) (balance current_price : Q)
  : M unit :=
  (last <- get_prices ;;
   if (len last <? DON_MAX_PERIOD cfg)%nat then ret tt
   else
     min_price <- lift (py_min (items last)) ;;
     max_price <- lift (py_max (items last)) ;;
     position_size <- lift (calculate_position_size balance current_price) ;;
     if Qltb max_price current_price then
       buy asset position_size ;;; clear_prices
     else if Qltb current_price min_price then
       sell asset position_size ;;; clear_prices
     else ret tt) ;;;
  append_price current_price.

Definition run_trading_strategy (asset : string) (margin_per_position : Q)
    (public_address : string) : M unit :=
  user_state <- fetch_user_state public_address ;;
  let balance := accountValue user_state in
  let positions := assetPositions user_state in
  let position := find (fun p => String.eqb (coin p) asset) positions in
  response <- fetch_all_mids ;;
  current_price <- lift (lookup_mid asset response) ;;
  if has_open_position position then
    match position with
    | None => ret tt
    | Some p =>
        let entry_price := entryPx p in
        let position_size := szi p in
        let unrealized_pnl := position_size * (current_price - entry_price) in
        ratio <- lift (py_div unrealized_pnl balance) ;;
        let pnl_percent := ratio * 100 in
        sleep (REQUEST_INTERVAL_SECONDS cfg)
    end
  else breakout_step asset balance current_price.

(** The breakout decision of [run_trading_strategy] (the tests on
    [len(last_prices)], [max_price] and [min_price]) as a function. *)
Inductive Signal : Type := NONE | LONG | SHORT.

Definition signal (last : deque) (current_price : Q) : res Signal :=
  if (len last <? DON_MAX_PERIOD cfg)%nat then Ok NONE
  else
    match py_min (items last) with
    | Raise e => Raise e
    | Ok min_price =>
        match py_max (items last) with
        | Raise e => Raise e
        | Ok max_price =>
            if Qltb max_price current_price then Ok LONG
            else if Qltb current_price min_price then Ok SHORT
            else Ok NONE
        end
    end.

(** ** The trading loop of the main block, cut after [n] iterations *)
Definition loop_iteration (asset : string) (margin_per_position : Q)
    (public_address : string) : M unit :=
  try_except (run_trading_strategy asset margin_per_position public_address)
             (fun _ => ret tt) ;;;
  sleep (REQUEST_INTERVAL_SECONDS cfg).

Fixpoint trading_loop (asset : string) (margin_per_position : Q)
    (public_address : string) (n : nat) : M unit :=
  match n with
  | O => ret tt
  | S k =>
      loop_iteration asset margin_per_position public_address ;;;
      trading_loop asset margin_per_position public_address k
  end.

Definition main (public_address : string) (n : nat) : M unit :=
  try_except
    (user_state <- fetch_user_state public_address ;;
     let balance := accountValue user_state in
     let asset := "BTC" in
     let margin_per_position := balance * RISK_PER_TRADE_PERCENT cfg / 100 in
     set_prices (deque_new (DON_MAX_PERIOD cfg)) ;;;
     trading_loop asset margin_per_position public_address n)
    (fun _ => ret tt).

End Bot.

(** * Definitions used by the statements *)

(** ** Sequences of operations on the price window *)

Inductive deque_op : Type :=
| Append (x : Q)
| Clear.

Definition apply_op (d : deque) (op : deque_op) : deque :=
  match op with
  | Append x => append d x
  | Clear => clear d
  end.

(** ** [buy] and [sell] with the direction as a parameter

    [buy] and [sell] are the same program up to the direction of the entry
    and the side on which the exits lie; [enter] is that program with the
    direction as a parameter. *)
Definition exit_prices (cfg : config) (is_buy : bool) (entry_price : Z)
  : Z * Z :=
  if is_buy
  then (py_int (inject_Z entry_price * (1 - STOP_LOSS_PERCENT cfg / 100)),
        py_int (inject_Z entry_price * (1 + TAKE_PROFIT_PERCENT cfg / 100)))
  else (py_int (inject_Z entry_price * (1 + STOP_LOSS_PERCENT cfg / 100)),
        py_int (inject_Z entry_price * (1 - TAKE_PROFIT_PERCENT cfg / 100))).

Definition enter (cfg : config) (client : exchange) (is_buy : bool)
    (asset : string) (position_size : Q) : M bool :=
  try_except
    (market_info <- get_market_info client asset ;;
     (if Qle_bool position_size 0
      then raise (ValueError "Position size must be positive")
      else ret tt) ;;;
     let position_size := py_round position_size (szDecimals market_info) in
     order <- submit_market_open client asset is_buy position_size ;;
     entry_price <- lift (entry_price_of order) ;;
     place_stop_loss client asset position_size
       (fst (exit_prices cfg is_buy entry_price)) (negb is_buy) ;;;
     place_take_profit client asset position_size
       (snd (exit_prices cfg is_buy entry_price)) (negb is_buy) ;;;
     ret true)
    (fun _ => ret false).

(** The stop-loss and take-profit requests for an entry. *)
Definition stop_loss_call (asset : string) (is_buy : bool) (sz : Q) (px : Z)
  : call :=
  COrder asset (negb is_buy) sz px true
         {| triggerPx := px; isMarket := true; tpsl := "sl" |}.

Definition take_profit_call (asset : string) (is_buy : bool) (sz : Q) (px : Z)
  : call :=
  COrder asset (negb is_buy) sz px true
         {| triggerPx := px; isMarket := true; tpsl := "tp" |}.

(** The answer the exchange gives to a request after the history [h]. *)
Definition answer (client : exchange) (h : list call) (c : call)
  : res order_result :=
  match c with
  | CMarketOpen asset is_buy sz => market_open client h asset is_buy sz
  | COrder asset is_buy sz px ro t => order client h asset is_buy sz px ro t
  | _ => Raise (ExchangeError "not an order")
  end.

(** An exit order is accepted when the client returns a response with
    status "ok" whose first status entry is not an error. *)
Definition accepted (r : res order_result) : bool :=
  match r with
  | Raise _ => false
  | Ok o =>
      String.eqb (status o) "ok" &&
      match statuses o with
      | Some (StatusError _ :: _) => false
      | Some (_ :: _) => true
      | _ => false
      end
  end.

(** The entry is placed and filled: the asset is known, the size is
    positive, and the market order answers with a fill. *)
Definition entry_filled (client : exchange) (is_buy : bool) (asset : string)
    (position_size : Q) (w : world) (sz : Q) (entry_price : Z) : Prop :=
  exists market_info o,
    fst (get_market_info client asset w) = Ok market_info /\
    Qle_bool position_size 0 = false /\
    sz = py_round position_size (szDecimals market_info) /\
    market_open client (calls w ++ [CMeta]) asset is_buy sz = Ok o /\
    entry_price_of o = Ok entry_price.

Definition with_calls (w : world) (new : list call) : world :=
  {| calls := calls w ++ new; last_prices := last_prices w |}.

(** [buy] for a long entry, [sell] for a short one. *)
Definition place_trade (cfg : config) (client : exchange) (is_buy : bool)
  : string -> Q -> M bool :=
  if is_buy then buy cfg client else sell cfg client.

Definition is_exit_order (c : call) : bool :=
  match c with
  | COrder _ _ _ _ _ _ => true
  | _ => false
  end.

Definition is_market_order (c : call) : bool :=
  match c with
  | CMarketOpen _ _ _ => true
  | _ => false
  end.

Definition is_take_profit (c : call) : bool :=
  match c with
  | COrder _ _ _ _ _ t => String.eqb (tpsl t) "tp"
  | _ => false
  end.

(** ** Scripted exchanges for concrete runs *)

Definition ok_reply (st : order_status) : res order_result :=
  Ok {| status := "ok"; statuses := Some [st] |}.

(** A flat account worth [balance]; BTC quoted and filled at [mid], traded
    with [decimals] size decimals; the stop-loss and take-profit orders are
    answered with [sl] and [tp]. *)
Definition scripted_exchange (balance mid : Q) (decimals : Z)
    (sl tp : res order_result) : exchange := {|
  meta := fun _ => Ok [ {| name := "ETH"; szDecimals := 4 |};
                        {| name := "SOL"; szDecimals := 2 |};
                        {| name := "BTC"; szDecimals := decimals |} ];
  get_user_state := fun _ _ =>
    Ok {| accountValue := balance; assetPositions := [] |};
  all_mids := fun _ => Ok [("ETH", 3000); ("BTC", mid)];
  market_open := fun _ _ _ _ => ok_reply (Filled mid);
  order := fun _ _ _ _ _ _ t => if String.eqb (tpsl t) "sl" then sl else tp
|}.

Definition rejecting_stop_loss (mid : Q) : exchange :=
  scripted_exchange 1000 mid 5 (ok_reply (StatusError "rejected"))
                    (ok_reply WaitingForTrigger).

Definition accepting (balance mid : Q) (decimals : Z) : exchange :=
  scripted_exchange balance mid decimals (ok_reply WaitingForTrigger)
                    (ok_reply WaitingForTrigger).

Definition full_window : deque := {| maxlen := 12; items := repeat 100 12 |}.

Definition world_full : world := {| calls := []; last_prices := full_window |}.

Definition zero_stop_config : config := {|
  MAX_LEVERAGE := 50;
  RISK_PER_TRADE_PERCENT := 2;
  RISK_REWARD_RATIO := 2;
  STOP_LOSS_PERCENT := 0;
  DON_MAX_PERIOD := 12;
  REQUEST_INTERVAL_SECONDS := 30
|}.

(** ** One polling cycle *)

(** The account is flat for [asset], worth [balance], and the mid price of
    [asset] is [current_price]. *)
Definition flat_cycle (client : exchange) (asset public_address : string)
    (w : world) (balance current_price : Q) : Prop :=
  exists us mids,
    get_user_state client (calls w) public_address = Ok us /\
    accountValue us = balance /\
    has_open_position
      (find (fun p => String.eqb (coin p) asset) (assetPositions us)) = false /\
    all_mids client (calls w ++ [CUserState public_address]) = Ok mids /\
    lookup_mid asset mids = Ok current_price.

Definition restarted (w : world) (x : Q) : world :=
  {| calls := calls w; last_prices := append (clear (last_prices w)) x |}.

Definition extended (w : world) (x : Q) : world :=
  {| calls := calls w; last_prices := append (last_prices w) x |}.

(** * The rest of the module *)

(** ** [get_current_position] *)
Definition get_current_position (client : exchange)
    (wallet_address asset : string) : M (option position) :=
  user_state <- fetch_user_state client wallet_address ;;
  let positions := assetPositions user_state in
  ret (find (fun p => String.eqb (coin p) asset) positions).

(** ** Vocabulary for the further statements *)

(** The four requests of a complete entry, in the order [buy] and [sell]
    make them. *)
Definition protocol (cfg : config) (is_buy : bool) (asset : string) (sz : Q)
    (entry_price : Z) : list call :=
  [CMeta;
   CMarketOpen asset is_buy sz;
   stop_loss_call asset is_buy sz (fst (exit_prices cfg is_buy entry_price));
   take_profit_call asset is_buy sz (snd (exit_prices cfg is_buy entry_price))].

Definition is_sleep (c : call) : bool :=
  match c with
  | CSleep _ => true
  | _ => false
  end.

Definition is_order (c : call) : bool := is_market_order c || is_exit_order c.

Definition set_leverage (cfg : config) (leverage : Q) : config := {|
  MAX_LEVERAGE := leverage;
  RISK_PER_TRADE_PERCENT := RISK_PER_TRADE_PERCENT cfg;
  RISK_REWARD_RATIO := RISK_REWARD_RATIO cfg;
  STOP_LOSS_PERCENT := STOP_LOSS_PERCENT cfg;
  DON_MAX_PERIOD := DON_MAX_PERIOD cfg;
  REQUEST_INTERVAL_SECONDS := REQUEST_INTERVAL_SECONDS cfg
|}.

(** An exchange whose account, worth [balance], holds [size] BTC entered at
    [entry]; BTC is quoted at [mid] and every order is accepted. *)
Definition holding (balance size entry mid : Q) : exchange := {|
  meta := fun _ => Ok [ {| name := "BTC"; szDecimals := 5 |} ];
  get_user_state := fun _ _ =>
    Ok {| accountValue := balance;
          assetPositions :=
            [ {| coin := "ETH"; szi := 0; entryPx := 3000;
                 liquidationPx := None |};
              {| coin := "BTC"; szi := size; entryPx := entry;
                 liquidationPx := Some 40000 |} ] |};
  all_mids := fun _ => Ok [("ETH", 3000); ("BTC", mid)];
  market_open := fun _ _ _ _ => ok_reply (Filled mid);
  order := fun _ _ _ _ _ _ _ => ok_reply WaitingForTrigger
|}.

(** An exchange that is down: every request raises. *)
Definition unreachable : exchange := {|
  meta := fun _ => Raise (ExchangeError "timeout");
  get_user_state := fun _ _ => Raise (ExchangeError "timeout");
  all_mids := fun _ => Raise (ExchangeError "timeout");
  market_open := fun _ _ _ _ => Raise (ExchangeError "timeout");
  order := fun _ _ _ _ _ _ _ => Raise (ExchangeError "timeout")
|}.

Definition empty_world : world :=
  {| calls := []; last_prices := deque_new 12 |}.

(** * Binary64 arithmetic

    A binary64 float is the rational it denotes. [b64] rounds a rational to
    the nearest binary64 value, ties to even, with gradual underflow; the
    operations of the interpreter are the exact operations followed by
    [b64]. Infinities and NaN are not represented: the statements about
    floats bound their inputs so that no operation overflows. *)

(** The integer part of the base-2 logarithm of a positive rational. *)
Definition Qlog2_floor (x : Q) : Z :=
  if Qle_bool 1 x then Z.log2 (Qfloor x)
  else (- Z.log2_up (Qceiling (/ x)))%Z.

(** [x] rounded to the nearest multiple of [2 ^ e], where [e] is the
    exponent of the last place of the binade of [x]: 52 below the integer
    part of its base-2 logarithm, and never below -1074. *)
Definition b64 (x : Q) : Q :=
  if Qeq_bool x 0 then 0
  else
    let magnitude := if Qle_bool 0 x then x else - x in
    let e := Z.max (Qlog2_floor magnitude - 52) (-1074) in
    inject_Z (round_half_even (x / 2 ^ e)) * 2 ^ e.

Definition fadd (x y : Q) : Q := b64 (x + y).
Definition fsub (x y : Q) : Q := b64 (x - y).
Definition fmul (x y : Q) : Q := b64 (x * y).
Definition fdiv (x y : Q) : Q := b64 (x / y).

(** The exit prices as [buy] and [sell] compute them on floats: the integer
    entry price is converted to a float, and every operation rounds. *)
Definition exit_prices_binary64 (cfg : config) (is_buy : bool)
    (entry_price : Z) : Z * Z :=
  let S := STOP_LOSS_PERCENT cfg in
  let T := fmul (STOP_LOSS_PERCENT cfg) (RISK_REWARD_RATIO cfg) in
  let entry := b64 (inject_Z entry_price) in
  if is_buy
  then (py_int (fmul entry (fsub 1 (fdiv S 100))),
        py_int (fmul entry (fadd 1 (fdiv T 100))))
  else (py_int (fmul entry (fadd 1 (fdiv S 100))),
        py_int (fmul entry (fsub 1 (fdiv T 100)))).

(** The source's settings with a stop-loss of 0.1%, the float nearest
    to 1/10. *)
Definition tenth_percent_config : config := {|
  MAX_LEVERAGE := 50;
  RISK_PER_TRADE_PERCENT := 2;
  RISK_REWARD_RATIO := 2;
  STOP_LOSS_PERCENT := b64 (1 # 10);
  DON_MAX_PERIOD := 12;
  REQUEST_INTERVAL_SECONDS := 30
|}.

(** ** [calculate_position_size] on floats

    The same function with every operation rounded: [2/100] is a float,
    and so are the product with the balance, the divisor
    [current_price * STOP_LOSS_PERCENT / 100] (a product, then a quotient),
    the quantity, the constant [0.001] and the result of [round]. A divisor
    that underflows to zero makes the division raise. *)
Definition py_div_binary64 (x y : Q) : res Q :=
  if Qeq_bool y 0 then Raise ZeroDivisionError else Ok (fdiv x y).

(** [round(x, ndigits)] on a float: the float nearest to the decimal
    rounding of the exact value of [x]. *)
Definition py_round_binary64 (x : Q) (ndigits : Z) : Q :=
  b64 (py_round x ndigits).

Definition sizing_try_binary64 (cfg : config) (balance current_price : Q)
  : res Q * option Q :=
  let risk_amount := fmul balance (fdiv (RISK_PER_TRADE_PERCENT cfg) 100) in
  if Qeq_bool (STOP_LOSS_PERCENT cfg) 0
  then (Raise (ValueError "STOP_LOSS_PERCENT cannot be 0"), None)
  else if Qeq_bool current_price 0
  then (Raise (ValueError "Current price cannot be 0"), None)
  else
    match py_div_binary64 risk_amount
            (fdiv (fmul current_price (STOP_LOSS_PERCENT cfg)) 100) with
    | Raise e => (Raise e, None)
    | Ok position_size =>
        let min_position_size := b64 (1 # 1000) in
        let position_size :=
          if Qltb position_size min_position_size
          then min_position_size else position_size in
        (Ok (py_round_binary64 position_size 5), Some min_position_size)
    end.

Definition calculate_position_size_binary64 (cfg : config)
    (balance current_price : Q) : res Q :=
  match sizing_try_binary64 cfg balance current_price with
  | (Ok size, _) => Ok size
  | (Raise _, Some min_position_size) => Ok min_position_size
  | (Raise _, None) => Raise (UnboundLocalError "min_position_size")
  end.

(** A full window with least element 90 and greatest element 110. *)
Definition channel_window : deque :=
  {| maxlen := 12;
     items := [100; 90; 100; 110; 100; 100; 100; 100; 100; 100; 100; 100] |}.

Definition world_channel : world :=
  {| calls := []; last_prices := channel_window |}.

(** * Properties *)

(** ** Comparisons and extrema *)

Lemma Qltb_lt (x y : Q) : Qltb x y = true <-> x < y.
Proof.
  unfold Qltb. rewrite negb_true_iff. split; intro H.
  - apply Qnot_le_lt. intro Hle. apply Qle_bool_iff in Hle. congruence.
  - destruct (Qle_bool y x) eqn:E; [|reflexivity].
    apply Qle_bool_iff in E. exfalso. exact (Qlt_not_le _ _ H E).
Qed.

Lemma Qltb_ge (x y : Q) : Qltb x y = false <-> y <= x.
Proof.
  unfold Qltb. rewrite negb_false_iff. apply Qle_bool_iff.
Qed.

Lemma fold_max_spec (rest : list Q) (x : Q) :
  let hi := fold_left (fun m y => if Qltb m y then y else m) rest x in
  In hi (x :: rest) /\ forall y, In y (x :: rest) -> y <= hi.
Proof.
  revert x. induction rest as [|z rest IH]; intro x; cbn [fold_left].
  - split; [now left|]. intros y [<-|[]]. apply Qle_refl.
  - destruct (IH (if Qltb x z then z else x)) as [Hin Hub]. split.
    + destruct Hin as [Heq|Hin]; [|right; right; exact Hin].
      rewrite <- Heq. destruct (Qltb x z); [right; left|left]; reflexivity.
    + intros y Hy.
      assert (Hstep : x <= (if Qltb x z then z else x)
                      /\ z <= (if Qltb x z then z else x)).
      { destruct (Qltb x z) eqn:E.
        - apply Qltb_lt in E. split; [apply Qlt_le_weak; exact E|apply Qle_refl].
        - apply Qltb_ge in E. split; [apply Qle_refl|exact E]. }
      destruct Hstep as [Hx Hz].
      destruct Hy as [<-|[<-|Hy]].
      * eapply Qle_trans; [exact Hx|]. apply Hub. now left.
      * eapply Qle_trans; [exact Hz|]. apply Hub. now left.
      * apply Hub. now right.
Qed.

Lemma fold_min_spec (rest : list Q) (x : Q) :
  let lo := fold_left (fun m y => if Qltb y m then y else m) rest x in
  In lo (x :: rest) /\ forall y, In y (x :: rest) -> lo <= y.
Proof.
  revert x. induction rest as [|z rest IH]; intro x; cbn [fold_left].
  - split; [now left|]. intros y [<-|[]]. apply Qle_refl.
  - destruct (IH (if Qltb z x then z else x)) as [Hin Hlb]. split.
    + destruct Hin as [Heq|Hin]; [|right; right; exact Hin].
      rewrite <- Heq. destruct (Qltb z x); [right; left|left]; reflexivity.
    + intros y Hy.
      assert (Hstep : (if Qltb z x then z else x) <= x
                      /\ (if Qltb z x then z else x) <= z).
      { destruct (Qltb z x) eqn:E.
        - apply Qltb_lt in E. split; [apply Qlt_le_weak; exact E|apply Qle_refl].
        - apply Qltb_ge in E. split; [apply Qle_refl|exact E]. }
      destruct Hstep as [Hx Hz].
      destruct Hy as [<-|[<-|Hy]].
      * eapply Qle_trans; [|exact Hx]. apply Hlb. now left.
      * eapply Qle_trans; [|exact Hz]. apply Hlb. now left.
      * apply Hlb. now right.
Qed.

(** On a non-empty sequence [min] and [max] return its least and greatest
    elements. *)
Lemma py_min_max_spec (xs : list Q) :
  xs <> [] ->
  exists lo hi,
    py_min xs = Ok lo /\ py_max xs = Ok hi /\
    In lo xs /\ In hi xs /\
    (forall y, In y xs -> lo <= y /\ y <= hi).
Proof.
  destruct xs as [|x rest]; [congruence|]. intros _.
  destruct (fold_min_spec rest x) as [Hlo Hlb].
  destruct (fold_max_spec rest x) as [Hhi Hub].
  eexists; eexists. split; [reflexivity|]. split; [reflexivity|].
  repeat split; auto.
Qed.

(** ** The price window *)

Lemma maxlen_append (d : deque) (x : Q) : maxlen (append d x) = maxlen d.
Proof. reflexivity. Qed.

Lemma append_below (d : deque) (x : Q) :
  (len d < maxlen d)%nat -> items (append d x) = items d ++ [x].
Proof.
  unfold len, append. cbn [items]. intro H.
  rewrite length_app. cbn [List.length].
  destruct (Nat.ltb_spec (maxlen d) (List.length (items d) + 1)); [lia|reflexivity].
Qed.

Lemma append_full (d : deque) (x : Q) :
  (0 < maxlen d)%nat -> len d = maxlen d ->
  exists oldest rest,
    items d = oldest :: rest /\ items (append d x) = rest ++ [x].
Proof.
  unfold len, append. cbn [items]. intros Hpos Hfull.
  assert (Hl : List.length (items d ++ [x]) = S (maxlen d))
    by (rewrite length_app; cbn [List.length]; lia).
  rewrite Hl, (proj2 (Nat.ltb_lt _ _)) by lia.
  destruct (items d) as [|oldest rest] eqn:E; cbn [List.length] in Hfull; [lia|].
  exists oldest, rest. split; reflexivity.
Qed.

Lemma append_bounded (d : deque) (x : Q) :
  (len d <= maxlen d)%nat -> (len (append d x) <= maxlen (append d x))%nat.
Proof.
  unfold len, append. cbn [items maxlen]. intro H.
  rewrite length_app. cbn [List.length].
  destruct (Nat.ltb_spec (maxlen d) (List.length (items d) + 1)).
  - destruct (items d) as [|a l]; cbn [app tl List.length] in *.
    + lia.
    + rewrite length_app. cbn [List.length]. lia.
  - rewrite length_app. cbn [List.length]. lia.
Qed.

Lemma apply_op_bounded (d : deque) (op : deque_op) :
  (len d <= maxlen d)%nat ->
  (len (apply_op d op) <= maxlen (apply_op d op))%nat
  /\ maxlen (apply_op d op) = maxlen d.
Proof.
  intro H. destruct op; cbn [apply_op].
  - split; [apply append_bounded; exact H|reflexivity].
  - split; [unfold len, clear; cbn; lia|reflexivity].
Qed.

Lemma fold_ops_bounded (ops : list deque_op) (d : deque) :
  (len d <= maxlen d)%nat ->
  (len (fold_left apply_op ops d) <= maxlen d)%nat.
Proof.
  revert d. induction ops as [|op ops IH]; intros d H; cbn [fold_left].
  - exact H.
  - destruct (apply_op_bounded d op H) as [Hb Hm].
    rewrite <- Hm. apply IH. exact Hb.
Qed.

Lemma fold_append_below (ps : list Q) (d : deque) :
  (len d + List.length ps <= maxlen d)%nat ->
  items (fold_left append ps d) = items d ++ ps.
Proof.
  revert d. induction ps as [|p ps IH]; intros d H; cbn [fold_left].
  - now rewrite app_nil_r.
  - cbn [List.length] in H.
    assert (Hstep : items (append d p) = items d ++ [p])
      by (apply append_below; lia).
    rewrite IH.
    + rewrite Hstep, <- app_assoc. reflexivity.
    + rewrite maxlen_append. unfold len. rewrite Hstep, length_app.
      cbn [List.length]. unfold len in H. lia.
Qed.

(** C10. Starting from the empty window of capacity N = 12: after at most N
    appends the window holds exactly the appended prices, so its length is
    their number; an append to a full window drops exactly its oldest
    element; and after any sequence of appends and clears the length is at
    most N. *)
Theorem price_window_bounded :
  let N := DON_MAX_PERIOD source_config in
  N = 12%nat /\
  (forall ps : list Q,
      (List.length ps <= N)%nat ->
      items (fold_left append ps (deque_new N)) = ps /\
      len (fold_left append ps (deque_new N)) = List.length ps) /\
  (forall (d : deque) (x : Q),
      maxlen d = N -> len d = N ->
      exists oldest rest,
        items d = oldest :: rest /\ items (append d x) = rest ++ [x]) /\
  (forall ops : list deque_op,
      (len (fold_left apply_op ops (deque_new N)) <= N)%nat).
Proof.
  cbv zeta. cbn [DON_MAX_PERIOD source_config].
  split; [reflexivity|]. split; [|split].
  - intros ps H.
    assert (E : items (fold_left append ps (deque_new 12)) = ps).
    { rewrite fold_append_below; [reflexivity|]. cbn. exact H. }
    split; [exact E|]. unfold len. now rewrite E.
  - intros d x Hm Hl. apply append_full; lia.
  - intro ops. apply (fold_ops_bounded ops (deque_new 12)). cbn. lia.
Qed.

Lemma price_window_bounded_witness :
  items (fold_left append [100; 101; 99] (deque_new 12)) = [100; 101; 99]
  /\ exists oldest rest,
       items {| maxlen := 12; items := repeat 7 12 |} = oldest :: rest /\
       items (append {| maxlen := 12; items := repeat 7 12 |} 8) = rest ++ [8].
Proof.
  destruct price_window_bounded as (_ & Hfill & Hevict & _).
  split.
  - apply (Hfill [100; 101; 99]). simpl. lia.
  - apply (Hevict {| maxlen := 12; items := repeat 7 12 |} 8); reflexivity.
Defined.

(** ** The breakout signal *)

(** The comparisons alone. With fewer than [DON_MAX_PERIOD] prices in the
    window [signal] is NONE whatever the current price. With a full,
    non-empty window whose least and greatest elements are [lo] and [hi],
    it is LONG exactly when the current price is above [hi], SHORT exactly
    when it is below [lo], and NONE otherwise; a price equal to [hi] or to
    [lo] gives NONE. *)
Lemma signal_rule (cfg : config) (last : deque) (current_price : Q) :
  ((len last < DON_MAX_PERIOD cfg)%nat ->
   signal cfg last current_price = Ok NONE)
  /\
  ((0 < DON_MAX_PERIOD cfg)%nat -> len last = DON_MAX_PERIOD cfg ->
   exists lo hi,
     py_min (items last) = Ok lo /\ py_max (items last) = Ok hi /\
     In lo (items last) /\ In hi (items last) /\
     (forall y, In y (items last) -> lo <= y /\ y <= hi) /\
     (signal cfg last current_price = Ok LONG <-> hi < current_price) /\
     (signal cfg last current_price = Ok SHORT <-> current_price < lo) /\
     (signal cfg last current_price = Ok NONE <->
        lo <= current_price /\ current_price <= hi) /\
     (current_price == hi \/ current_price == lo ->
      signal cfg last current_price = Ok NONE)).
Proof.
  split.
  - intro H. unfold signal. now rewrite (proj2 (Nat.ltb_lt _ _) H).
  - intros Hpos Hfull.
    assert (Hne : items last <> []).
    { intro E. unfold len in Hfull. rewrite E in Hfull. cbn in Hfull. lia. }
    destruct (py_min_max_spec (items last) Hne)
      as (lo & hi & Hmin & Hmax & Hlo & Hhi & Hbounds).
    assert (Hlohi : lo <= hi) by (apply (Hbounds lo Hlo)).
    assert (Hsig : signal cfg last current_price =
                   if Qltb hi current_price then Ok LONG
                   else if Qltb current_price lo then Ok SHORT else Ok NONE).
    { unfold signal. rewrite Hmin, Hmax.
      destruct (Nat.ltb_spec (len last) (DON_MAX_PERIOD cfg)); [lia|reflexivity]. }
    exists lo, hi. repeat (split; [assumption|]).
    rewrite Hsig.
    destruct (Qltb hi current_price) eqn:Ehi;
      [apply Qltb_lt in Ehi | apply Qltb_ge in Ehi];
      (destruct (Qltb current_price lo) eqn:Elo;
       [apply Qltb_lt in Elo | apply Qltb_ge in Elo]).
    all: repeat split; try discriminate; try reflexivity; try assumption; intros.
    all: try lra.
    all: try (destruct H; lra).
Qed.

(** The worked example of the specification: window with least element 90
    and greatest element 110. *)
Example signal_examples :
  let w := {| maxlen := 12; items := [100; 90; 100; 110; 100; 100;
                                      100; 100; 100; 100; 100; 100] |} in
  signal source_config w 111 = Ok LONG /\
  signal source_config w 89 = Ok SHORT /\
  signal source_config w 100 = Ok NONE /\
  signal source_config w 110 = Ok NONE /\
  signal source_config w 90 = Ok NONE.
Proof. repeat split. Qed.

(** ** Position sizing *)

Lemma sizing_try_zero (cfg : config) (balance current_price : Q) :
  STOP_LOSS_PERCENT cfg == 0 \/ current_price == 0 ->
  exists msg,
    sizing_try cfg balance current_price = (Raise (ValueError msg), None).
Proof.
  intro H. unfold sizing_try.
  destruct (Qeq_bool (STOP_LOSS_PERCENT cfg) 0) eqn:ES.
  - eexists; reflexivity.
  - destruct H as [H|H].
    + apply Qeq_bool_iff in H. congruence.
    + apply Qeq_bool_iff in H. rewrite H. eexists; reflexivity.
Qed.

Lemma handler_unbound (cfg : config) (balance current_price : Q) (e : exn) :
  sizing_try cfg balance current_price = (Raise e, None) ->
  calculate_position_size cfg balance current_price
  = Raise (UnboundLocalError "min_position_size").
Proof. unfold calculate_position_size. now intros ->. Qed.

(** Every exception of the [try] block is raised before
    [min_position_size] is assigned. *)
Lemma sizing_try_raise_unbound (cfg : config) (balance current_price : Q)
    (e : exn) (locals : option Q) :
  sizing_try cfg balance current_price = (Raise e, locals) -> locals = None.
Proof.
  unfold sizing_try.
  destruct (Qeq_bool (STOP_LOSS_PERCENT cfg) 0); [congruence|].
  destruct (Qeq_bool current_price 0); [congruence|].
  destruct (py_div _ _); congruence.
Qed.

(** C5. An exception raised in [calculate_position_size] before
    [min_position_size] is assigned makes the handler's
    [return min_position_size] raise [UnboundLocalError]; the zero stop-loss
    and zero price checks are such exceptions, so the function raises
    instead of returning the minimum size. *)
Theorem sizing_fallback_unbound (cfg : config) (balance current_price : Q) :
  (forall e,
      sizing_try cfg balance current_price = (Raise e, None) ->
      calculate_position_size cfg balance current_price
      = Raise (UnboundLocalError "min_position_size"))
  /\
  (STOP_LOSS_PERCENT cfg == 0 \/ current_price == 0 ->
   (exists msg,
       sizing_try cfg balance current_price = (Raise (ValueError msg), None))
   /\ calculate_position_size cfg balance current_price
      = Raise (UnboundLocalError "min_position_size")
   /\ calculate_position_size cfg balance current_price <> Ok (1 # 1000)).
Proof.
  split.
  - intro e. apply handler_unbound.
  - intro H. destruct (sizing_try_zero cfg balance current_price H) as [msg E].
    split; [exists msg; exact E|].
    rewrite (handler_unbound _ _ _ _ E). split; [reflexivity|discriminate].
Qed.

Lemma sizing_fallback_unbound_witness :
  calculate_position_size source_config 1000 0
  = Raise (UnboundLocalError "min_position_size").
Proof.
  apply (proj2 (sizing_fallback_unbound source_config 1000 0)).
  right. reflexivity.
Defined.

(** ** The three-order protocol of [buy] and [sell] *)

Lemma buy_enter (cfg : config) (client : exchange) :
  buy cfg client = enter cfg client true.
Proof. reflexivity. Qed.

Lemma sell_enter (cfg : config) (client : exchange) :
  sell cfg client = enter cfg client false.
Proof. reflexivity. Qed.

Lemma check_trigger_reply_accepted (label errlabel : string) (o : order_result) :
  match check_trigger_reply label errlabel o with
  | Ok _ => accepted (Ok o) = true
  | Raise _ => accepted (Ok o) = false
  end.
Proof.
  unfold check_trigger_reply, accepted.
  destruct (String.eqb (status o) "ok"); cbn [negb andb]; [|reflexivity].
  destruct (statuses o) as [[|[] ?]|]; reflexivity.
Qed.

Lemma place_stop_loss_run (client : exchange) (asset : string) (sz : Q)
    (px : Z) (is_buy : bool) (w : world) :
  let c := stop_loss_call asset is_buy sz px in
  snd (place_stop_loss client asset sz px (negb is_buy) w) = with_calls w [c]
  /\ match fst (place_stop_loss client asset sz px (negb is_buy) w) with
     | Ok _ => accepted (answer client (calls w) c) = true
     | Raise _ => accepted (answer client (calls w) c) = false
     end.
Proof.
  unfold place_stop_loss, bind, submit_order, lift, stop_loss_call, answer.
  cbn zeta.
  destruct (order client (calls w) asset (negb is_buy) sz px true _) as [o|e];
    cbn [fst snd].
  - pose proof (check_trigger_reply_accepted
                  "Failed to place stop loss order" "Stop loss order error" o) as H.
    destruct (check_trigger_reply _ _ o); cbn [fst snd]; split;
      try reflexivity; exact H.
  - split; reflexivity.
Qed.

Lemma place_take_profit_run (client : exchange) (asset : string) (sz : Q)
    (px : Z) (is_buy : bool) (w : world) :
  let c := take_profit_call asset is_buy sz px in
  snd (place_take_profit client asset sz px (negb is_buy) w) = with_calls w [c]
  /\ match fst (place_take_profit client asset sz px (negb is_buy) w) with
     | Ok _ => accepted (answer client (calls w) c) = true
     | Raise _ => accepted (answer client (calls w) c) = false
     end.
Proof.
  unfold place_take_profit, bind, submit_order, lift, take_profit_call, answer.
  cbn zeta.
  destruct (order client (calls w) asset (negb is_buy) sz px true _) as [o|e];
    cbn [fst snd].
  - pose proof (check_trigger_reply_accepted
                  "Failed to place take profit order" "Take profit order error" o)
      as H.
    destruct (check_trigger_reply _ _ o); cbn [fst snd]; split;
      try reflexivity; exact H.
  - split; reflexivity.
Qed.

Lemma get_market_info_run (client : exchange) (asset : string) (w : world) :
  get_market_info client asset w
  = (fst (get_market_info client asset w), with_calls w [CMeta]).
Proof. reflexivity. Qed.

Lemma with_calls_app (w : world) (l1 l2 : list call) :
  with_calls (with_calls w l1) l2 = with_calls w (l1 ++ l2).
Proof. unfold with_calls. cbn. now rewrite app_assoc. Qed.

(** Once the entry is filled, what [enter] does is decided by the answers to
    the two exit orders: the stop-loss is submitted; the take-profit is
    submitted only if the stop-loss was accepted; the result is [True] only
    if both were. *)
Lemma enter_filled (cfg : config) (client : exchange) (is_buy : bool)
    (asset : string) (position_size : Q) (w : world) (sz : Q) (e : Z) :
  entry_filled client is_buy asset position_size w sz e ->
  let entry := CMarketOpen asset is_buy sz in
  let sl := stop_loss_call asset is_buy sz (fst (exit_prices cfg is_buy e)) in
  let tp := take_profit_call asset is_buy sz (snd (exit_prices cfg is_buy e)) in
  enter cfg client is_buy asset position_size w =
  if accepted (answer client (calls w ++ [CMeta; entry]) sl)
  then (Ok (accepted (answer client (calls w ++ [CMeta; entry; sl]) tp)),
        with_calls w [CMeta; entry; sl; tp])
  else (Ok false, with_calls w [CMeta; entry; sl]).
Proof.
  intros (info & o & Hinfo & Hpos & Hsz & Hopen & Hprice). cbv zeta.
  unfold enter, try_except, bind.
  rewrite get_market_info_run, Hinfo, Hpos. cbn [ret].
  rewrite <- Hsz. unfold submit_market_open.
  cbn [calls with_calls]. rewrite Hopen.
  unfold lift at 1. rewrite Hprice.
  set (w2 := log (CMarketOpen asset is_buy sz) (with_calls w [CMeta])).
  assert (Hw2 : w2 = with_calls w [CMeta; CMarketOpen asset is_buy sz]).
  { unfold w2, log, with_calls. cbn. now rewrite <- app_assoc. }
  destruct (place_stop_loss_run client asset sz
              (fst (exit_prices cfg is_buy e)) is_buy w2) as [Hs1 Hs2].
  destruct (place_stop_loss client asset sz _ (negb is_buy) w2) as [r1 w3].
  cbn [fst snd] in Hs1, Hs2. subst w3.
  rewrite Hw2 in Hs2 |- *. cbn [calls with_calls] in Hs2.
  rewrite with_calls_app. cbn [app].
  destruct r1 as [o1|e1]; rewrite Hs2; [|reflexivity].
  set (w3 := with_calls w _).
  destruct (place_take_profit_run client asset sz
              (snd (exit_prices cfg is_buy e)) is_buy w3) as [Ht1 Ht2].
  destruct (place_take_profit client asset sz _ (negb is_buy) w3) as [r2 w4].
  cbn [fst snd] in Ht1, Ht2. subst w4.
  unfold w3 in *. cbn [calls with_calls] in Ht2.
  rewrite with_calls_app. cbn [app].
  destruct r2 as [o2|e2]; rewrite Ht2; reflexivity.
Qed.

(** When the entry is not filled, nothing but the metadata lookup and at most
    the market order itself is sent, and the result is [False]. *)
Lemma enter_not_filled (cfg : config) (client : exchange) (is_buy : bool)
    (asset : string) (position_size : Q) (w : world) :
  (forall sz e, ~ entry_filled client is_buy asset position_size w sz e) ->
  exists new,
    enter cfg client is_buy asset position_size w = (Ok false, with_calls w new)
    /\ (new = [CMeta] \/ exists sz, new = [CMeta; CMarketOpen asset is_buy sz]).
Proof.
  intro Hno. unfold enter, try_except, bind.
  rewrite get_market_info_run.
  destruct (fst (get_market_info client asset w)) as [info|e0] eqn:Hinfo.
  2:{ exists [CMeta]. split; [reflexivity|now left]. }
  destruct (Qle_bool position_size 0) eqn:Hpos.
  { exists [CMeta]. split; [reflexivity|now left]. }
  cbn [ret]. unfold submit_market_open. cbn [calls with_calls].
  set (sz := py_round position_size (szDecimals info)).
  exists [CMeta; CMarketOpen asset is_buy sz].
  assert (Hw2 : log (CMarketOpen asset is_buy sz) (with_calls w [CMeta])
                = with_calls w [CMeta; CMarketOpen asset is_buy sz]).
  { unfold log, with_calls. cbn. now rewrite <- app_assoc. }
  rewrite Hw2.
  split; [|right; now exists sz].
  destruct (market_open client (calls w ++ [CMeta]) asset is_buy sz)
    as [o|e1] eqn:Hopen; [|reflexivity].
  unfold lift at 1.
  destruct (entry_price_of o) as [e|e2] eqn:Hprice; [|reflexivity].
  exfalso. apply (Hno sz e). exists info, o. repeat split; assumption.
Qed.

Lemma entry_filled_dec (client : exchange) (is_buy : bool) (asset : string)
    (position_size : Q) (w : world) :
  (exists sz e, entry_filled client is_buy asset position_size w sz e)
  \/ (forall sz e, ~ entry_filled client is_buy asset position_size w sz e).
Proof.
  unfold entry_filled.
  destruct (fst (get_market_info client asset w)) as [info|e0] eqn:Hinfo.
  2:{ right. intros sz e (i & o & H & _). congruence. }
  destruct (Qle_bool position_size 0) eqn:Hpos.
  { right. intros sz e (i & o & _ & H & _). congruence. }
  destruct (market_open client (calls w ++ [CMeta]) asset is_buy
              (py_round position_size (szDecimals info))) as [o|e1] eqn:Hopen.
  2:{ right. intros sz e (i & o & Hi & _ & Hsz & Ho & _).
      injection Hi as <-. subst sz. congruence. }
  destruct (entry_price_of o) as [e|e2] eqn:Hprice.
  - left. exists (py_round position_size (szDecimals info)), e, info, o.
    repeat split; assumption.
  - right. intros sz e (i & o' & Hi & _ & Hsz & Ho & He).
    injection Hi as <-. subst sz. rewrite Hopen in Ho. injection Ho as <-.
    congruence.
Qed.

(** [enter] never raises, only adds requests to the log, and leaves the
    price window alone. *)
Lemma enter_total (cfg : config) (client : exchange) (is_buy : bool)
    (asset : string) (position_size : Q) (w : world) :
  exists b new,
    enter cfg client is_buy asset position_size w = (Ok b, with_calls w new).
Proof.
  destruct (entry_filled_dec client is_buy asset position_size w)
    as [(sz & e & H)|H].
  - rewrite (enter_filled cfg _ _ _ _ _ _ _ H).
    destruct (accepted _); eexists; eexists; reflexivity.
  - destruct (enter_not_filled cfg _ _ _ _ _ H) as (new & E & _).
    exists false, new. exact E.
Qed.

Lemma place_trade_enter (cfg : config) (client : exchange) (is_buy : bool) :
  place_trade cfg client is_buy = enter cfg client is_buy.
Proof. destruct is_buy; reflexivity. Qed.

Lemma enter_filled_calls (cfg : config) (client : exchange) (is_buy : bool)
    (asset : string) (position_size : Q) (w : world) (sz : Q) (e : Z) :
  entry_filled client is_buy asset position_size w sz e ->
  let entry := CMarketOpen asset is_buy sz in
  let sl := stop_loss_call asset is_buy sz (fst (exit_prices cfg is_buy e)) in
  let tp := take_profit_call asset is_buy sz (snd (exit_prices cfg is_buy e)) in
  let run := enter cfg client is_buy asset position_size w in
  last_prices (snd run) = last_prices w /\
  exists exits,
    calls (snd run) = calls w ++ [CMeta; entry] ++ exits /\
    ((accepted (answer client (calls w ++ [CMeta; entry]) sl) = false /\
      exits = [sl] /\ fst run = Ok false)
     \/
     (accepted (answer client (calls w ++ [CMeta; entry]) sl) = true /\
      exits = [sl; tp] /\
      fst run = Ok (accepted (answer client (calls w ++ [CMeta; entry; sl]) tp)))).
Proof.
  intro H. cbv zeta. rewrite (enter_filled cfg _ _ _ _ _ _ _ H).
  destruct (accepted (answer client (calls w ++ [CMeta; CMarketOpen asset is_buy sz]) _))
    eqn:Hsl; cbn [fst snd with_calls calls last_prices].
  - split; [reflexivity|]. eexists. split; [reflexivity|].
    right. repeat split.
  - split; [reflexivity|]. eexists. split; [reflexivity|].
    left. repeat split.
Qed.

Lemma entry_price_of_filled (o : order_result) (e : Z) :
  entry_price_of o = Ok e ->
  status o = "ok" /\
  exists avgPx rest, statuses o = Some (Filled avgPx :: rest) /\ e = py_int avgPx.
Proof.
  unfold entry_price_of.
  destruct (String.eqb_spec (status o) "ok") as [Hs|Hs]; cbn [negb];
    [|discriminate].
  destruct (statuses o) as [[|[avgPx| | |msg] rest]|]; cbn [index0];
    try discriminate.
  intro H. injection H as <-. split; [exact Hs|]. now exists avgPx, rest.
Qed.

(** C9. After a filled entry, when the stop-loss or the take-profit is not
    accepted, the attempt ends with the rejected exit as its last request:
    the result is [False], the only market order among the requests is the
    entry itself (nothing closes the position), and the price window is
    untouched. *)
Theorem no_rollback_on_exit_failure (cfg : config) (client : exchange)
    (is_buy : bool) (asset : string) (position_size : Q) (w : world)
    (sz : Q) (entry_price : Z) :
  entry_filled client is_buy asset position_size w sz entry_price ->
  let entry := CMarketOpen asset is_buy sz in
  let sl := stop_loss_call asset is_buy sz
              (fst (exit_prices cfg is_buy entry_price)) in
  let tp := take_profit_call asset is_buy sz
              (snd (exit_prices cfg is_buy entry_price)) in
  let run := place_trade cfg client is_buy asset position_size w in
  accepted (answer client (calls w ++ [CMeta; entry]) sl) = false \/
  accepted (answer client (calls w ++ [CMeta; entry; sl]) tp) = false ->
  fst run = Ok false /\
  last_prices (snd run) = last_prices w /\
  exists exits,
    calls (snd run) = calls w ++ [CMeta; entry] ++ exits /\
    (exits = [sl] \/ exits = [sl; tp]) /\
    filter is_market_order ([CMeta; entry] ++ exits) = [entry].
Proof.
  intros H. cbv zeta. intro Hfail. rewrite place_trade_enter.
  destruct (enter_filled_calls cfg _ _ _ _ _ _ _ H)
    as (Hwin & exits & Hcalls & Hcase).
  destruct Hcase as [(Hsl & -> & Hr)|(Hsl & -> & Hr)].
  - split; [exact Hr|]. split; [exact Hwin|].
    eexists. split; [exact Hcalls|]. split; [now left|reflexivity].
  - destruct Hfail as [Hf|Hf]; [congruence|].
    rewrite Hf in Hr.
    split; [exact Hr|]. split; [exact Hwin|].
    eexists. split; [exact Hcalls|]. split; [now right|reflexivity].
Qed.

(** C1 (as the code has it). After a filled entry, a stop-loss that is not
    accepted ends the attempt: the take-profit is not submitted and the
    result is the plain [False]. An entry that is not filled ends it before
    any exit order. *)
Theorem stop_loss_failure_short_circuits (cfg : config) (client : exchange)
    (is_buy : bool) (asset : string) (position_size : Q) (w : world) :
  (forall sz entry_price,
      entry_filled client is_buy asset position_size w sz entry_price ->
      let entry := CMarketOpen asset is_buy sz in
      let sl := stop_loss_call asset is_buy sz
                  (fst (exit_prices cfg is_buy entry_price)) in
      accepted (answer client (calls w ++ [CMeta; entry]) sl) = false ->
      place_trade cfg client is_buy asset position_size w
      = (Ok false, with_calls w [CMeta; entry; sl]))
  /\
  ((forall sz entry_price,
       ~ entry_filled client is_buy asset position_size w sz entry_price) ->
   exists new,
     place_trade cfg client is_buy asset position_size w
     = (Ok false, with_calls w new)
     /\ filter is_exit_order new = []).
Proof.
  rewrite place_trade_enter. split.
  - intros sz e H. cbv zeta. intro Hsl.
    rewrite (enter_filled cfg _ _ _ _ _ _ _ H), Hsl. reflexivity.
  - intro H. destruct (enter_not_filled cfg _ _ _ _ _ H) as (new & E & Hnew).
    exists new. split; [exact E|].
    destruct Hnew as [->|[sz ->]]; reflexivity.
Qed.

(** ** The protocol on scripted exchanges *)

Ltac entry_is_filled d p :=
  exists {| name := "BTC"; szDecimals := d |},
         {| status := "ok"; statuses := Some [Filled p] |};
  repeat split; vm_compute; reflexivity.

(** C1, as stated, fails: the entry is filled, the stop-loss is rejected, the
    exchange would have accepted a take-profit, and yet no take-profit
    request is made; the result is [False]. *)
Lemma take_profit_not_attempted :
  let client := rejecting_stop_loss 50000 in
  let run := buy source_config client "BTC" (4 # 100) world_full in
  entry_filled client true "BTC" (4 # 100) world_full
               (py_round (4 # 100) 5) 50000 /\
  accepted (answer client (calls (snd run))
              (take_profit_call "BTC" true (py_round (4 # 100) 5) 51000))
  = true /\
  fst run = Ok false /\
  existsb is_take_profit (calls (snd run)) = false.
Proof.
  cbv zeta. split; [entry_is_filled 5%Z 50000|].
  repeat split; vm_compute; reflexivity.
Qed.

Lemma stop_loss_failure_short_circuits_witness :
  place_trade source_config (rejecting_stop_loss 50000) true "BTC" (4 # 100)
              world_full
  = (Ok false,
     with_calls world_full
       [CMeta; CMarketOpen "BTC" true (py_round (4 # 100) 5);
        stop_loss_call "BTC" true (py_round (4 # 100) 5) 49500]).
Proof.
  apply (proj1 (stop_loss_failure_short_circuits source_config
                  (rejecting_stop_loss 50000) true "BTC" (4 # 100) world_full)
               (py_round (4 # 100) 5) 50000%Z).
  - entry_is_filled 5%Z 50000.
  - vm_compute. reflexivity.
Defined.

Lemma no_rollback_on_exit_failure_witness :
  fst (place_trade source_config (rejecting_stop_loss 50000) true "BTC"
                   (4 # 100) world_full) = Ok false.
Proof.
  apply (no_rollback_on_exit_failure source_config
           (rejecting_stop_loss 50000) true "BTC" (4 # 100) world_full
           (py_round (4 # 100) 5) 50000%Z).
  - entry_is_filled 5%Z 50000.
  - left. vm_compute. reflexivity.
Defined.

(** ** Sizing and the size of the market order *)

Lemma round_half_even_ge_floor (x : Q) : (Qfloor x <= round_half_even x)%Z.
Proof.
  unfold round_half_even.
  destruct (Qcompare _ _); [destruct (Z.even _)| |]; lia.
Qed.

Lemma py_round_5_ge_min (x : Q) : 1 # 1000 <= x -> 1 # 1000 <= py_round x 5.
Proof.
  intro H. unfold py_round. cbn [Z.leb Z.compare].
  assert (Hpow : pow10 5 == 100000) by reflexivity.
  assert (Hfloor : (100 <= Qfloor (x * pow10 5))%Z).
  { change 100%Z with (Qfloor (inject_Z 100)).
    apply Qfloor_resp_le. rewrite Hpow.
    setoid_replace (inject_Z 100) with ((1 # 1000) * 100000) by reflexivity.
    apply Qmult_le_compat_r; [exact H|discriminate]. }
  pose proof (round_half_even_ge_floor (x * pow10 5)) as Hr.
  apply Qle_shift_div_l; [reflexivity|].
  setoid_replace ((1 # 1000) * pow10 5) with (inject_Z 100) by reflexivity.
  rewrite <- Zle_Qle. lia.
Qed.

Lemma sizing_divisor_nonzero (cfg : config) (current_price : Q) :
  ~ STOP_LOSS_PERCENT cfg == 0 -> ~ current_price == 0 ->
  Qeq_bool (current_price * STOP_LOSS_PERCENT cfg / 100) 0 = false.
Proof.
  intros HS HP. destruct (Qeq_bool _ 0) eqn:E; [|reflexivity].
  apply Qeq_bool_iff in E. exfalso.
  assert (H : current_price * STOP_LOSS_PERCENT cfg == 0).
  { setoid_replace (current_price * STOP_LOSS_PERCENT cfg)
      with (current_price * STOP_LOSS_PERCENT cfg / 100 * 100) by field.
    rewrite E. reflexivity. }
  apply Qmult_integral in H. tauto.
Qed.

(** With a non-zero stop-loss percentage and a non-zero price the sizing
    returns the quantity, raised to the minimum and then rounded to five
    decimals. *)
Lemma calculate_position_size_ok (cfg : config) (balance current_price : Q) :
  ~ STOP_LOSS_PERCENT cfg == 0 -> ~ current_price == 0 ->
  let risk_amount := balance * (RISK_PER_TRADE_PERCENT cfg / 100) in
  let quantity := risk_amount / (current_price * STOP_LOSS_PERCENT cfg / 100) in
  calculate_position_size cfg balance current_price
  = Ok (py_round (if Qltb quantity (1 # 1000) then 1 # 1000 else quantity) 5).
Proof.
  intros HS HP. cbv zeta. unfold calculate_position_size, sizing_try, py_div.
  rewrite (sizing_divisor_nonzero cfg current_price HS HP).
  destruct (Qeq_bool (STOP_LOSS_PERCENT cfg) 0) eqn:ES;
    [apply Qeq_bool_iff in ES; contradiction|].
  destruct (Qeq_bool current_price 0) eqn:EP;
    [apply Qeq_bool_iff in EP; contradiction|].
  reflexivity.
Qed.

(** The market order of [enter] carries the size rounded to the asset's
    size decimals. *)
Lemma enter_market_order (cfg : config) (client : exchange) (is_buy : bool)
    (asset : string) (position_size : Q) (w : world) (info : asset_info) :
  fst (get_market_info client asset w) = Ok info ->
  Qle_bool position_size 0 = false ->
  exists rest,
    calls (snd (enter cfg client is_buy asset position_size w))
    = calls w
      ++ [CMeta;
          CMarketOpen asset is_buy (py_round position_size (szDecimals info))]
      ++ rest.
Proof.
  intros Hinfo Hpos.
  destruct (entry_filled_dec client is_buy asset position_size w)
    as [(sz & e & H)|H].
  - destruct (enter_filled_calls cfg _ _ _ _ _ _ _ H) as (_ & exits & Hc & _).
    destruct H as (info' & o & Hinfo' & _ & Hsz & _).
    rewrite Hinfo in Hinfo'. injection Hinfo' as <-. subst sz.
    exists exits. exact Hc.
  - exists []. revert H. unfold enter, try_except, bind.
    rewrite get_market_info_run, Hinfo, Hpos. cbn [ret].
    unfold submit_market_open. cbn [calls with_calls].
    destruct (market_open client (calls w ++ [CMeta]) asset is_buy _)
      as [o|e1] eqn:Hopen.
    + unfold lift at 1.
      destruct (entry_price_of o) as [e|e2] eqn:Hprice.
      * intro H. exfalso.
        apply (H (py_round position_size (szDecimals info)) e).
        exists info, o. repeat split; assumption.
      * intros _. cbn. now rewrite <- app_assoc.
    + intros _. cbn. now rewrite <- app_assoc.
Qed.

(** C4, as stated, fails: with a zero price, and with a zero stop-loss
    percentage, the caller does not get the validation error. *)
Lemma zero_input_not_validation_error :
  ~ (exists msg,
        calculate_position_size source_config 1000 0 = Raise (ValueError msg))
  /\ ~ (exists msg,
           calculate_position_size zero_stop_config 1000 50000
           = Raise (ValueError msg)).
Proof.
  split; intros [msg H]; vm_compute in H; discriminate.
Qed.

(** C4 (as the code has it). A zero stop-loss percentage or a zero price
    makes the check inside the [try] block raise [ValueError]; the function's
    own handler takes it, so the caller never gets it. *)
Theorem sizing_validation_is_caught (cfg : config) (balance current_price : Q) :
  STOP_LOSS_PERCENT cfg == 0 \/ current_price == 0 ->
  (exists msg,
      sizing_try cfg balance current_price = (Raise (ValueError msg), None))
  /\ ~ (exists msg,
           calculate_position_size cfg balance current_price
           = Raise (ValueError msg)).
Proof.
  intro H. destruct (sizing_try_zero cfg balance current_price H) as [msg E].
  split; [now exists msg|].
  intros [msg' H']. rewrite (handler_unbound _ _ _ _ E) in H'. discriminate.
Qed.

Lemma sizing_validation_is_caught_witness :
  exists msg,
    sizing_try zero_stop_config 1000 50000 = (Raise (ValueError msg), None).
Proof.
  apply (sizing_validation_is_caught zero_stop_config 1000 50000).
  left. reflexivity.
Defined.

(** C8, as stated, fails: for an asset with two size decimals a small
    account is sized at the minimum 0.001, and the order then goes out with
    that size rounded to 0, below the minimum. *)
Lemma rounded_size_below_minimum :
  let client := accepting (5 # 100) 150 5 in
  exists size sz rest,
    calculate_position_size source_config (5 # 100) 150 = Ok size /\
    size == 1 # 1000 /\
    calls (snd (buy source_config client "SOL" size world_full))
    = CMeta :: CMarketOpen "SOL" true sz :: rest /\
    sz == 0 /\ ~ 1 # 1000 <= sz.
Proof.
  cbv zeta. eexists. eexists. eexists.
  split; [vm_compute; reflexivity|].
  split; [reflexivity|].
  split; [vm_compute; reflexivity|].
  split; [reflexivity|]. intro H. vm_compute in H. apply H. reflexivity.
Qed.

(** ** One polling cycle *)

Lemma run_trading_strategy_flat (cfg : config) (client : exchange)
    (asset : string) (margin : Q) (public_address : string) (w : world)
    (balance current_price : Q) :
  flat_cycle client asset public_address w balance current_price ->
  run_trading_strategy cfg client asset margin public_address w
  = breakout_step cfg client asset balance current_price
      (with_calls w [CUserState public_address; CAllMids]).
Proof.
  intros (us & mids & Hus & Hbal & Hflat & Hmids & Hp).
  unfold run_trading_strategy, bind at 1, fetch_user_state. rewrite Hus.
  unfold bind at 1, fetch_all_mids. cbn [calls log]. rewrite Hmids.
  unfold bind at 1, lift at 1. rewrite Hp, Hflat, Hbal.
  f_equal. unfold log, with_calls. cbn. now rewrite <- app_assoc.
Qed.

Lemma signal_trade_inv (cfg : config) (last : deque) (p : Q) (is_buy : bool) :
  signal cfg last p = Ok (if is_buy then LONG else SHORT) ->
  (len last <? DON_MAX_PERIOD cfg)%nat = false /\
  exists lo hi,
    py_min (items last) = Ok lo /\ py_max (items last) = Ok hi /\
    Qltb hi p = is_buy /\ (is_buy = false -> Qltb p lo = true).
Proof.
  unfold signal.
  destruct (len last <? DON_MAX_PERIOD cfg)%nat;
    [destruct is_buy; discriminate|].
  destruct (py_min (items last)) as [lo|]; [|discriminate].
  destruct (py_max (items last)) as [hi|]; [|discriminate].
  intro H. split; [reflexivity|]. exists lo, hi.
  split; [reflexivity|]. split; [reflexivity|].
  destruct (Qltb hi p); destruct (Qltb p lo); destruct is_buy;
    try discriminate; split; auto; discriminate.
Qed.

(** A cycle whose signal is LONG or SHORT: the trade is attempted, and then,
    whatever its result, the window is cleared and the current price
    appended. *)
Lemma breakout_step_trade (cfg : config) (client : exchange) (asset : string)
    (balance p : Q) (w : world) (is_buy : bool) (size : Q) :
  signal cfg (last_prices w) p = Ok (if is_buy then LONG else SHORT) ->
  calculate_position_size cfg balance p = Ok size ->
  breakout_step cfg client asset balance p w
  = (Ok tt, restarted (snd (place_trade cfg client is_buy asset size w)) p).
Proof.
  intros Hsig Hsize.
  destruct (signal_trade_inv _ _ _ _ Hsig)
    as (Hlen & lo & hi & Hmin & Hmax & Hhi & Hlo).
  rewrite place_trade_enter.
  destruct (enter_total cfg client is_buy asset size w) as (b & new & Hrun).
  unfold breakout_step, bind at 1, bind at 1, get_prices. rewrite Hlen.
  unfold bind at 1, lift at 1. rewrite Hmin.
  unfold bind at 1, lift at 1. rewrite Hmax.
  unfold bind at 1, lift at 1. rewrite Hsize.
  rewrite Hhi. destruct is_buy.
  - rewrite buy_enter. unfold bind at 1. rewrite Hrun. reflexivity.
  - rewrite (Hlo eq_refl), sell_enter. unfold bind at 1. rewrite Hrun.
    reflexivity.
Qed.

Lemma breakout_step_collecting (cfg : config) (client : exchange)
    (asset : string) (balance p : Q) (w : world) :
  (len (last_prices w) < DON_MAX_PERIOD cfg)%nat ->
  breakout_step cfg client asset balance p w = (Ok tt, extended w p).
Proof.
  intro H. unfold breakout_step, bind at 1, bind at 1, get_prices.
  now rewrite (proj2 (Nat.ltb_lt _ _) H).
Qed.

Lemma restarted_items (w : world) (x : Q) :
  (0 < maxlen (last_prices w))%nat ->
  items (last_prices (restarted w x)) = [x].
Proof.
  intro H. unfold restarted, append, clear. cbn.
  destruct (maxlen (last_prices w)); [lia|reflexivity].
Qed.

(** After a cycle that attempted a trade on a full window, the window holds
    the current price and nothing else. *)
Lemma trade_cycle_window (cfg : config) (client : exchange) (asset : string)
    (margin : Q) (public_address : string) (w : world)
    (balance p : Q) (is_buy : bool) (size : Q) :
  flat_cycle client asset public_address w balance p ->
  maxlen (last_prices w) = DON_MAX_PERIOD cfg ->
  len (last_prices w) = DON_MAX_PERIOD cfg ->
  signal cfg (last_prices w) p = Ok (if is_buy then LONG else SHORT) ->
  calculate_position_size cfg balance p = Ok size ->
  let run := run_trading_strategy cfg client asset margin public_address w in
  fst run = Ok tt /\
  items (last_prices (snd run)) = [p] /\
  maxlen (last_prices (snd run)) = DON_MAX_PERIOD cfg /\
  calls (snd run)
  = calls (snd (place_trade cfg client is_buy asset size
                  (with_calls w [CUserState public_address; CAllMids]))).
Proof.
  intros Hflat Hmax Hfull Hsig Hsize. cbv zeta.
  rewrite (run_trading_strategy_flat cfg _ _ margin _ _ _ _ Hflat).
  set (w1 := with_calls w [CUserState public_address; CAllMids]).
  assert (Hsig1 : signal cfg (last_prices w1) p
                  = Ok (if is_buy then LONG else SHORT)) by exact Hsig.
  rewrite (breakout_step_trade cfg client asset balance p w1 is_buy size
             Hsig1 Hsize).
  rewrite place_trade_enter.
  destruct (enter_total cfg client is_buy asset size w1) as (b & new & Hrun).
  rewrite Hrun. cbn [fst snd].
  assert (Hpos : (0 < maxlen (last_prices w))%nat).
  { destruct (signal_trade_inv _ _ _ _ Hsig) as (_ & lo & hi & Hmin & _).
    unfold len in Hfull. destruct (items (last_prices w)); [discriminate|].
    cbn [List.length] in Hfull. lia. }
  split; [reflexivity|]. split; [|split].
  - apply restarted_items. exact Hpos.
  - exact Hmax.
  - reflexivity.
Qed.

(** C3, as stated, fails: a cycle whose long trade succeeds (all three
    orders accepted) ends with the triggering price in the window, so the
    window is not empty. *)
Lemma successful_trade_window_not_empty :
  let client := accepting 1000 101 5 in
  let run := run_trading_strategy source_config client "BTC" 20 "0xabc"
                                  world_full in
  signal source_config (last_prices world_full) 101 = Ok LONG /\
  (exists size,
      calculate_position_size source_config 1000 101 = Ok size /\
      fst (buy source_config client "BTC" size
               (with_calls world_full [CUserState "0xabc"; CAllMids]))
      = Ok true) /\
  fst run = Ok tt /\
  items (last_prices (snd run)) = [101] /\
  len (last_prices (snd run)) <> 0%nat.
Proof.
  cbv zeta. split; [reflexivity|].
  split; [eexists; split; vm_compute; reflexivity|].
  split; [vm_compute; reflexivity|].
  split; [vm_compute; reflexivity|].
  vm_compute. discriminate.
Qed.

(** C3 (as the code has it). In a cycle with a full window whose trade
    attempt succeeds, the window is cleared and the triggering price is then
    appended: at the end of the cycle the window holds that price alone,
    length 1. *)
Theorem successful_trade_restarts_window (cfg : config) (client : exchange)
    (asset : string) (margin : Q) (public_address : string) (w : world)
    (balance p : Q) (is_buy : bool) (size : Q) :
  flat_cycle client asset public_address w balance p ->
  maxlen (last_prices w) = DON_MAX_PERIOD cfg ->
  len (last_prices w) = DON_MAX_PERIOD cfg ->
  signal cfg (last_prices w) p = Ok (if is_buy then LONG else SHORT) ->
  calculate_position_size cfg balance p = Ok size ->
  fst (place_trade cfg client is_buy asset size
         (with_calls w [CUserState public_address; CAllMids])) = Ok true ->
  let run := run_trading_strategy cfg client asset margin public_address w in
  fst run = Ok tt /\
  items (last_prices (snd run)) = [p] /\
  len (last_prices (snd run)) = 1%nat.
Proof.
  intros Hflat Hmax Hfull Hsig Hsize _. cbv zeta.
  destruct (trade_cycle_window cfg client asset margin public_address w
              balance p is_buy size Hflat Hmax Hfull Hsig Hsize)
    as (Hr & Hitems & _).
  split; [exact Hr|]. split; [exact Hitems|].
  unfold len. now rewrite Hitems.
Qed.

Ltac cycle_is_flat b p :=
  exists {| accountValue := b; assetPositions := [] |},
         [("ETH", 3000); ("BTC", p)];
  repeat split; vm_compute; reflexivity.

Lemma successful_trade_restarts_window_witness :
  items (last_prices
           (snd (run_trading_strategy source_config (accepting 1000 101 5)
                   "BTC" 20 "0xabc" world_full))) = [101].
Proof.
  apply (successful_trade_restarts_window source_config (accepting 1000 101 5)
           "BTC" 20 "0xabc" world_full 1000 101 true
           (py_round (100000 # 5050) 5)).
  - cycle_is_flat 1000 101.
  - reflexivity.
  - reflexivity.
  - reflexivity.
  - vm_compute. reflexivity.
  - vm_compute. reflexivity.
Defined.

(** C2, as stated, fails: a cycle whose long trade fails (the stop-loss is
    rejected) still clears the window; the next cycle starts with a window
    of one price, not with the full one. *)
Lemma failed_trade_window_cleared :
  let client := rejecting_stop_loss 101 in
  let run := run_trading_strategy source_config client "BTC" 20 "0xabc"
                                  world_full in
  signal source_config (last_prices world_full) 101 = Ok LONG /\
  (exists size,
      calculate_position_size source_config 1000 101 = Ok size /\
      fst (buy source_config client "BTC" size
               (with_calls world_full [CUserState "0xabc"; CAllMids]))
      = Ok false) /\
  fst run = Ok tt /\
  items (last_prices (snd run)) = [101] /\
  len (last_prices (snd run)) <> DON_MAX_PERIOD source_config /\
  signal source_config (last_prices (snd run)) 101 = Ok NONE.
Proof.
  cbv zeta. split; [reflexivity|].
  split; [eexists; split; vm_compute; reflexivity|].
  split; [vm_compute; reflexivity|].
  split; [vm_compute; reflexivity|].
  split; [vm_compute; discriminate|].
  vm_compute. reflexivity.
Qed.

(** C2 (as the code has it). In a cycle with a full window whose trade
    attempt fails, the window is cleared all the same and the current price
    appended: the next cycle starts with that price alone in the window, and
    with a period above 1 it finds the window not full and gives no
    signal. *)
Theorem failed_trade_restarts_window (cfg : config) (client : exchange)
    (asset : string) (margin : Q) (public_address : string) (w : world)
    (balance p : Q) (is_buy : bool) (size : Q) :
  flat_cycle client asset public_address w balance p ->
  maxlen (last_prices w) = DON_MAX_PERIOD cfg ->
  len (last_prices w) = DON_MAX_PERIOD cfg ->
  signal cfg (last_prices w) p = Ok (if is_buy then LONG else SHORT) ->
  calculate_position_size cfg balance p = Ok size ->
  fst (place_trade cfg client is_buy asset size
         (with_calls w [CUserState public_address; CAllMids])) = Ok false ->
  let run := run_trading_strategy cfg client asset margin public_address w in
  fst run = Ok tt /\
  items (last_prices (snd run)) = [p] /\
  ((1 < DON_MAX_PERIOD cfg)%nat ->
   forall next_price,
     signal cfg (last_prices (snd run)) next_price = Ok NONE).
Proof.
  intros Hflat Hmax Hfull Hsig Hsize _. cbv zeta.
  destruct (trade_cycle_window cfg client asset margin public_address w
              balance p is_buy size Hflat Hmax Hfull Hsig Hsize)
    as (Hr & Hitems & _).
  split; [exact Hr|]. split; [exact Hitems|].
  intros HN next_price. unfold signal, len. rewrite Hitems. cbn [List.length].
  now rewrite (proj2 (Nat.ltb_lt _ _) HN).
Qed.

Lemma failed_trade_restarts_window_witness :
  items (last_prices
           (snd (run_trading_strategy source_config (rejecting_stop_loss 101)
                   "BTC" 20 "0xabc" world_full))) = [101].
Proof.
  apply (failed_trade_restarts_window source_config (rejecting_stop_loss 101)
           "BTC" 20 "0xabc" world_full 1000 101 true
           (py_round (100000 # 5050) 5)).
  - cycle_is_flat 1000 101.
  - reflexivity.
  - reflexivity.
  - reflexivity.
  - vm_compute. reflexivity.
  - vm_compute. reflexivity.
Defined.

(** ** The whole decision, and the window across the loop *)

(** [breakout_step] is the signal acted upon; with a full window the sizing
    runs before the comparison is looked at, so a sizing that raises ends
    the cycle before anything is traded or appended. *)
Lemma breakout_step_by_signal (cfg : config) (client : exchange)
    (asset : string) (balance p : Q) (w : world) :
  breakout_step cfg client asset balance p w =
  if (len (last_prices w) <? DON_MAX_PERIOD cfg)%nat
  then (Ok tt, extended w p)
  else
    match signal cfg (last_prices w) p with
    | Raise e => (Raise e, w)
    | Ok s =>
        match calculate_position_size cfg balance p with
        | Raise e => (Raise e, w)
        | Ok size =>
            match s with
            | NONE => (Ok tt, extended w p)
            | LONG =>
                (Ok tt, restarted (snd (buy cfg client asset size w)) p)
            | SHORT =>
                (Ok tt, restarted (snd (sell cfg client asset size w)) p)
            end
        end
    end.
Proof.
  destruct (len (last_prices w) <? DON_MAX_PERIOD cfg)%nat eqn:Hlen.
  - apply breakout_step_collecting. now apply Nat.ltb_lt.
  - unfold signal. rewrite Hlen.
    unfold breakout_step, bind at 1, bind at 1, get_prices. rewrite Hlen.
    unfold bind at 1, lift at 1.
    destruct (py_min (items (last_prices w))) as [lo|e]; [|reflexivity].
    unfold bind at 1, lift at 1.
    destruct (py_max (items (last_prices w))) as [hi|e]; [|reflexivity].
    unfold bind at 1, lift at 1.
    destruct (Qltb hi p) eqn:Hhi.
    + destruct (calculate_position_size cfg balance p) as [size|e];
        [|reflexivity].
      destruct (enter_total cfg client true asset size w) as (b & new & Hrun).
      rewrite buy_enter. unfold bind at 1. rewrite Hrun. reflexivity.
    + destruct (Qltb p lo) eqn:Hlo.
      * destruct (calculate_position_size cfg balance p) as [size|e];
          [|reflexivity].
        destruct (enter_total cfg client false asset size w) as (b & new & Hrun).
        rewrite sell_enter. unfold bind at 1. rewrite Hrun. reflexivity.
      * destruct (calculate_position_size cfg balance p) as [size|e];
          reflexivity.
Qed.

Lemma fold_ops_maxlen (ops : list deque_op) (d : deque) :
  maxlen (fold_left apply_op ops d) = maxlen d.
Proof.
  revert d. induction ops as [|op ops IH]; intro d; cbn [fold_left].
  - reflexivity.
  - rewrite IH. destruct op; reflexivity.
Qed.

Lemma enter_window (cfg : config) (client : exchange) (is_buy : bool)
    (asset : string) (size : Q) (w : world) :
  last_prices (snd (enter cfg client is_buy asset size w)) = last_prices w.
Proof.
  destruct (enter_total cfg client is_buy asset size w) as (b & new & Hrun).
  now rewrite Hrun.
Qed.

(** Whatever the exchange answers, a cycle changes the window only by
    appends and clears. *)
Lemma breakout_step_window (cfg : config) (client : exchange)
    (asset : string) (balance p : Q) (w : world) :
  exists ops,
    last_prices (snd (breakout_step cfg client asset balance p w))
    = fold_left apply_op ops (last_prices w).
Proof.
  rewrite breakout_step_by_signal.
  destruct (len (last_prices w) <? DON_MAX_PERIOD cfg)%nat.
  { exists [Append p]. reflexivity. }
  destruct (signal cfg (last_prices w) p) as [s|e]; [|exists []; reflexivity].
  destruct (calculate_position_size cfg balance p) as [size|e];
    [|exists []; reflexivity].
  destruct s.
  - exists [Append p]. reflexivity.
  - exists [Clear; Append p]. cbn [snd restarted last_prices fold_left apply_op].
    now rewrite buy_enter, enter_window.
  - exists [Clear; Append p]. cbn [snd restarted last_prices fold_left apply_op].
    now rewrite sell_enter, enter_window.
Qed.

Lemma run_trading_strategy_window (cfg : config) (client : exchange)
    (asset : string) (margin : Q) (public_address : string) (w : world) :
  exists ops,
    last_prices
      (snd (run_trading_strategy cfg client asset margin public_address w))
    = fold_left apply_op ops (last_prices w).
Proof.
  unfold run_trading_strategy, bind at 1, fetch_user_state.
  destruct (get_user_state client (calls w) public_address) as [us|e];
    [|exists []; reflexivity].
  unfold bind at 1, fetch_all_mids.
  destruct (all_mids client _) as [mids|e]; [|exists []; reflexivity].
  unfold bind at 1, lift at 1.
  destruct (lookup_mid asset mids) as [p|e]; [|exists []; reflexivity].
  destruct (has_open_position _).
  - destruct (find _ (assetPositions us)) as [pos|]; [|exists []; reflexivity].
    unfold bind, lift. destruct (py_div _ _); exists []; reflexivity.
  - exact (breakout_step_window cfg client asset (accountValue us) p
             (log CAllMids (log (CUserState public_address) w))).
Qed.

Lemma loop_iteration_window (cfg : config) (client : exchange)
    (asset : string) (margin : Q) (public_address : string) (w : world) :
  fst (loop_iteration cfg client asset margin public_address w) = Ok tt /\
  exists ops,
    last_prices
      (snd (loop_iteration cfg client asset margin public_address w))
    = fold_left apply_op ops (last_prices w).
Proof.
  destruct (run_trading_strategy_window cfg client asset margin
              public_address w) as (ops & H).
  unfold loop_iteration, bind, try_except.
  destruct (run_trading_strategy cfg client asset margin public_address w)
    as [[[]|e] w1]; cbn [snd] in H; cbn [ret sleep fst snd log last_prices];
    (split; [reflexivity|exists ops; exact H]).
Qed.

(** The loop never stops on an exception of a cycle, and the window it
    carries stays within its capacity. *)
Lemma trading_loop_window_bounded (cfg : config) (client : exchange)
    (asset : string) (margin : Q) (public_address : string) (n : nat)
    (w : world) :
  (len (last_prices w) <= maxlen (last_prices w))%nat ->
  let run := trading_loop cfg client asset margin public_address n w in
  fst run = Ok tt /\
  maxlen (last_prices (snd run)) = maxlen (last_prices w) /\
  (len (last_prices (snd run)) <= maxlen (last_prices w))%nat.
Proof.
  revert w. induction n as [|n IH]; intros w Hw; cbv zeta.
  - cbn. repeat split. exact Hw.
  - cbn [trading_loop]. unfold bind.
    destruct (loop_iteration_window cfg client asset margin public_address w)
      as (Hr & ops & Hops).
    destruct (loop_iteration cfg client asset margin public_address w)
      as [r w1]. cbn [fst snd] in Hr, Hops. subst r.
    assert (Hm : maxlen (last_prices w1) = maxlen (last_prices w))
      by (rewrite Hops; apply fold_ops_maxlen).
    assert (Hl : (len (last_prices w1) <= maxlen (last_prices w1))%nat).
    { rewrite Hm, Hops. apply fold_ops_bounded. exact Hw. }
    destruct (IH w1 Hl) as (H1 & H2 & H3).
    rewrite <- Hm. repeat split; assumption.
Qed.

(** From the main block on: once the initial balance is read, the window of
    the loop has capacity [DON_MAX_PERIOD] and never holds more. *)
Lemma main_window_bounded (cfg : config) (client : exchange)
    (public_address : string) (n : nat) (w : world) (us : user_state) :
  get_user_state client (calls w) public_address = Ok us ->
  let run := main cfg client public_address n w in
  fst run = Ok tt /\
  maxlen (last_prices (snd run)) = DON_MAX_PERIOD cfg /\
  (len (last_prices (snd run)) <= DON_MAX_PERIOD cfg)%nat.
Proof.
  intro Hus. cbv zeta.
  unfold main, try_except, bind, fetch_user_state, set_prices.
  rewrite Hus.
  set (w1 := {| calls := calls (log (CUserState public_address) w);
                last_prices := deque_new (DON_MAX_PERIOD cfg) |}).
  destruct (trading_loop_window_bounded cfg client "BTC"
              (accountValue us * RISK_PER_TRADE_PERCENT cfg / 100)
              public_address n w1) as (Hr & Hm & Hl).
  { cbn. lia. }
  destruct (trading_loop cfg client "BTC" _ public_address n w1) as [r w2].
  cbn [fst snd] in Hr, Hm, Hl. subst r. cbn [fst snd].
  split; [reflexivity|]. split; [exact Hm|exact Hl].
Qed.

(** * Further properties *)

(** ** Lookups *)

Lemma find_first {A} (f : A -> bool) (before : list A) (m : A)
    (after : list A) :
  f m = true -> (forall m', In m' before -> f m' = false) ->
  find f (before ++ m :: after) = Some m.
Proof.
  intros Hm. induction before as [|x before IH]; intro Hb; cbn.
  - now rewrite Hm.
  - rewrite (Hb x (or_introl eq_refl)). apply IH.
    intros m' Hin. apply Hb. now right.
Qed.

Lemma find_none_iff {A} (f : A -> bool) (l : list A) :
  find f l = None <-> forall x, In x l -> f x = false.
Proof.
  split.
  - intros H x Hin. exact (find_none f l H x Hin).
  - induction l as [|x l IH]; intro H; cbn; [reflexivity|].
    rewrite (H x (or_introl eq_refl)). apply IH.
    intros y Hy. apply H. now right.
Qed.

(** X1. [get_market_info] makes one metadata request; an error of the
    client is passed on; from the universe it returns the first entry named
    [asset], and raises [ValueError] exactly when no entry has that name. *)
Theorem get_market_info_lookup (client : exchange) (asset : string)
    (w : world) :
  snd (get_market_info client asset w) = with_calls w [CMeta] /\
  (forall e, meta client (calls w) = Raise e ->
             fst (get_market_info client asset w) = Raise e) /\
  (forall universe,
      meta client (calls w) = Ok universe ->
      (fst (get_market_info client asset w)
       = Raise (ValueError "Asset not found")
       <-> forall m, In m universe -> name m <> asset) /\
      (forall before m after,
          universe = before ++ m :: after -> name m = asset ->
          (forall m', In m' before -> name m' <> asset) ->
          fst (get_market_info client asset w) = Ok m)).
Proof.
  split; [reflexivity|]. split.
  - intros e H. unfold get_market_info. cbn [fst]. now rewrite H.
  - intros universe H. unfold get_market_info. cbn [fst]. rewrite H. split.
    + destruct (find _ universe) as [m|] eqn:E.
      * split; [discriminate|]. intro Hno. exfalso.
        destruct (find_some _ _ E) as [Hin Hn].
        apply String.eqb_eq in Hn. exact (Hno m Hin Hn).
      * split; [|reflexivity]. intros _ m Hin Hn.
        pose proof (find_none _ _ E m Hin) as Hf. cbn in Hf.
        apply String.eqb_neq in Hf. contradiction.
    + intros before m after -> Hn Hb.
      rewrite find_first; [reflexivity| |].
      * now apply String.eqb_eq.
      * intros m' Hin. apply String.eqb_neq. now apply Hb.
Qed.

Lemma get_market_info_lookup_witness :
  fst (get_market_info (accepting 1000 50000 5) "BTC" world_full)
  = Ok {| name := "BTC"; szDecimals := 5 |}
  /\ fst (get_market_info (accepting 1000 50000 5) "DOGE" world_full)
     = Raise (ValueError "Asset not found").
Proof.
  destruct (get_market_info_lookup (accepting 1000 50000 5) "BTC" world_full)
    as (_ & _ & Hbtc).
  destruct (get_market_info_lookup (accepting 1000 50000 5) "DOGE" world_full)
    as (_ & _ & Hdoge).
  split.
  - apply (proj2 (Hbtc _ eq_refl)
             [ {| name := "ETH"; szDecimals := 4 |};
               {| name := "SOL"; szDecimals := 2 |} ]
             {| name := "BTC"; szDecimals := 5 |} []); [reflexivity..|].
    intros m' [<-|[<-|[]]]; discriminate.
  - apply (proj1 (Hdoge _ eq_refl)).
    intros m [<-|[<-|[<-|[]]]]; discriminate.
Defined.

(** X2. [get_current_position] makes one account-state request and passes
    on its error; otherwise it returns the first position whose coin is
    [asset], whatever its size (a position of size 0 included), and [None]
    exactly when the account lists no position in that coin. *)
Theorem get_current_position_lookup (client : exchange)
    (wallet_address asset : string) (w : world) :
  snd (get_current_position client wallet_address asset w)
  = with_calls w [CUserState wallet_address] /\
  (forall e, get_user_state client (calls w) wallet_address = Raise e ->
             fst (get_current_position client wallet_address asset w)
             = Raise e) /\
  (forall us,
      get_user_state client (calls w) wallet_address = Ok us ->
      (fst (get_current_position client wallet_address asset w) = Ok None
       <-> forall p, In p (assetPositions us) -> coin p <> asset) /\
      (forall before p after,
          assetPositions us = before ++ p :: after -> coin p = asset ->
          (forall p', In p' before -> coin p' <> asset) ->
          fst (get_current_position client wallet_address asset w)
          = Ok (Some p))).
Proof.
  unfold get_current_position, bind, fetch_user_state, ret.
  split; [|split].
  - destruct (get_user_state client (calls w) wallet_address); reflexivity.
  - intros e H. now rewrite H.
  - intros us H. rewrite H. cbn [fst]. split.
    + split.
      * intros E p Hin Hc. assert (E' : find (fun p0 => String.eqb (coin p0) asset)
                                         (assetPositions us) = None) by congruence.
        pose proof (find_none _ _ E' p Hin) as Hf. cbn in Hf.
        apply String.eqb_neq in Hf. contradiction.
      * intro Hno. f_equal. apply find_none_iff. intros p Hin.
        apply String.eqb_neq. now apply Hno.
    + intros before p after E Hc Hb. f_equal. rewrite E.
      apply find_first.
      * now apply String.eqb_eq.
      * intros p' Hin. apply String.eqb_neq. now apply Hb.
Qed.

Lemma get_current_position_lookup_witness :
  fst (get_current_position (holding 1000 0 50000 50500) "0xabc" "ETH"
         empty_world)
  = Ok (Some {| coin := "ETH"; szi := 0; entryPx := 3000;
                liquidationPx := None |})
  /\ fst (get_current_position (holding 1000 0 50000 50500) "0xabc" "SOL"
            empty_world) = Ok None.
Proof.
  destruct (get_current_position_lookup (holding 1000 0 50000 50500)
              "0xabc" "ETH" empty_world) as (_ & _ & Heth).
  destruct (get_current_position_lookup (holding 1000 0 50000 50500)
              "0xabc" "SOL" empty_world) as (_ & _ & Hsol).
  split.
  - apply (proj2 (Heth _ eq_refl) []
             {| coin := "ETH"; szi := 0; entryPx := 3000;
                liquidationPx := None |}
             [ {| coin := "BTC"; szi := 0; entryPx := 50000;
                  liquidationPx := Some 40000 |} ]); [reflexivity..|].
    intros p' [].
  - apply (proj1 (Hsol _ eq_refl)).
    intros p [<-|[<-|[]]]; discriminate.
Defined.

(** ** The order protocol, whatever the exchange answers *)

(** What [enter] logs is a prefix, at least the metadata request, of the
    four-request protocol; a [True] result has all four. *)
Lemma enter_shape (cfg : config) (client : exchange) (is_buy : bool)
    (asset : string) (position_size : Q) (w : world) :
  exists b sz e k,
    (1 <= k <= 4)%nat /\
    enter cfg client is_buy asset position_size w
    = (Ok b, with_calls w (firstn k (protocol cfg is_buy asset sz e))) /\
    (b = true -> k = 4%nat) /\
    ((2 <= k)%nat ->
     exists info,
       fst (get_market_info client asset w) = Ok info /\
       Qle_bool position_size 0 = false /\
       sz = py_round position_size (szDecimals info)) /\
    ((3 <= k)%nat -> entry_filled client is_buy asset position_size w sz e).
Proof.
  destruct (entry_filled_dec client is_buy asset position_size w)
    as [(sz & e & H)|H].
  - rewrite (enter_filled cfg _ _ _ _ _ _ _ H).
    assert (Hinfo : exists info,
               fst (get_market_info client asset w) = Ok info /\
               Qle_bool position_size 0 = false /\
               sz = py_round position_size (szDecimals info)).
    { destruct H as (info & o & H1 & H2 & H3 & _). now exists info. }
    destruct (accepted (answer client _ (stop_loss_call _ _ _ _))).
    + eexists; exists sz, e, 4%nat. repeat split; auto; lia.
    + exists false, sz, e, 3%nat.
      repeat split; auto; try lia; try discriminate.
  - unfold enter, try_except, bind. rewrite get_market_info_run.
    destruct (fst (get_market_info client asset w)) as [info|e0] eqn:Hinfo.
    2:{ exists false, 0, 0%Z, 1%nat.
        repeat split; try lia; try discriminate. }
    destruct (Qle_bool position_size 0) eqn:Hpos.
    { exists false, 0, 0%Z, 1%nat.
      repeat split; try lia; try discriminate. }
    cbn [ret]. unfold submit_market_open. cbn [calls with_calls].
    set (sz := py_round position_size (szDecimals info)).
    assert (Hw2 : log (CMarketOpen asset is_buy sz) (with_calls w [CMeta])
                  = with_calls w [CMeta; CMarketOpen asset is_buy sz]).
    { unfold log, with_calls. cbn. now rewrite <- app_assoc. }
    rewrite Hw2.
    assert (Hk2 : (2 <= 2)%nat ->
                  exists info0,
                    Ok info = Ok info0 /\ false = false /\
                    sz = py_round position_size (szDecimals info0))
      by (intros _; now exists info).
    destruct (market_open client (calls w ++ [CMeta]) asset is_buy sz)
      as [o|e1] eqn:Hopen.
    + unfold lift at 1.
      destruct (entry_price_of o) as [e|e2] eqn:Hprice.
      * exfalso. apply (H sz e). exists info, o. repeat split; assumption.
      * exists false, sz, 0%Z, 2%nat.
        repeat split; try lia; try discriminate; exact Hk2.
    + exists false, sz, 0%Z, 2%nat.
      repeat split; try lia; try discriminate; exact Hk2.
Qed.

(** X3. [buy] and [sell] never let an exception out: whatever the exchange
    answers or raises, they return a boolean, leave the price window alone,
    and add to the log a prefix of the four requests metadata, market order,
    stop-loss, take-profit, in that order and never more; the result is
    [True] only with all four. *)
Theorem trade_never_raises (cfg : config) (client : exchange) (is_buy : bool)
    (asset : string) (position_size : Q) (w : world) :
  exists b sz entry_price k,
    (1 <= k <= 4)%nat /\
    place_trade cfg client is_buy asset position_size w
    = (Ok b,
       {| calls := calls w
                   ++ firstn k (protocol cfg is_buy asset sz entry_price);
          last_prices := last_prices w |}) /\
    (b = true -> k = 4%nat).
Proof.
  rewrite place_trade_enter.
  destruct (enter_shape cfg client is_buy asset position_size w)
    as (b & sz & e & k & Hk & Hrun & Hb & _).
  exists b, sz, e, k. repeat split; try lia; assumption.
Qed.

(** X4. A position size that is not positive, or an asset the metadata
    lookup does not return, ends [buy] and [sell] with [False] before any
    order: the only request made is the metadata lookup, which comes before
    the check on the size. *)
Theorem no_order_for_bad_size_or_asset (cfg : config) (client : exchange)
    (is_buy : bool) (asset : string) (position_size : Q) (w : world) :
  position_size <= 0 \/
  (exists e, fst (get_market_info client asset w) = Raise e) ->
  place_trade cfg client is_buy asset position_size w
  = (Ok false, with_calls w [CMeta]).
Proof.
  intro H. rewrite place_trade_enter.
  unfold enter, try_except, bind. rewrite get_market_info_run.
  destruct (fst (get_market_info client asset w)) as [info|e0] eqn:Hinfo;
    [|reflexivity].
  destruct H as [H|[e H]]; [|discriminate].
  apply Qle_bool_iff in H. now rewrite H.
Qed.

Lemma no_order_for_bad_size_or_asset_witness :
  place_trade source_config (accepting 1000 50000 5) true "BTC" 0 world_full
  = (Ok false, with_calls world_full [CMeta])
  /\ place_trade source_config (accepting 1000 50000 5) false "DOGE" 1
                 world_full
     = (Ok false, with_calls world_full [CMeta]).
Proof.
  split.
  - apply no_order_for_bad_size_or_asset. left. discriminate.
  - apply no_order_for_bad_size_or_asset. right.
    exists (ValueError "Asset not found"). reflexivity.
Defined.

(** X5. [buy] and [sell] return [True] exactly when the entry is filled and
    the exchange accepts both the stop-loss and the take-profit. *)
Theorem trade_succeeds_iff_all_accepted (cfg : config) (client : exchange)
    (is_buy : bool) (asset : string) (position_size : Q) (w : world) :
  fst (place_trade cfg client is_buy asset position_size w) = Ok true
  <->
  exists sz entry_price,
    entry_filled client is_buy asset position_size w sz entry_price /\
    let entry := CMarketOpen asset is_buy sz in
    let sl := stop_loss_call asset is_buy sz
                (fst (exit_prices cfg is_buy entry_price)) in
    let tp := take_profit_call asset is_buy sz
                (snd (exit_prices cfg is_buy entry_price)) in
    accepted (answer client (calls w ++ [CMeta; entry]) sl) = true /\
    accepted (answer client (calls w ++ [CMeta; entry; sl]) tp) = true.
Proof.
  rewrite place_trade_enter. split.
  - intro Hok.
    destruct (entry_filled_dec client is_buy asset position_size w)
      as [(sz & e & H)|H].
    + exists sz, e. split; [exact H|]. cbv zeta.
      rewrite (enter_filled cfg _ _ _ _ _ _ _ H) in Hok.
      destruct (accepted (answer client _ (stop_loss_call _ _ _ _)));
        cbn [fst] in Hok; [|discriminate].
      split; [reflexivity|]. now injection Hok.
    + destruct (enter_not_filled cfg _ _ _ _ _ H) as (new & E & _).
      rewrite E in Hok. discriminate.
  - intros (sz & e & H & Hsl & Htp). cbv zeta in Hsl, Htp.
    rewrite (enter_filled cfg _ _ _ _ _ _ _ H), Hsl, Htp. reflexivity.
Qed.

(** X6. Every exit order [buy] or [sell] submits is for the traded asset,
    on the side opposite to the entry, reduce-only, market-on-trigger with
    the limit price equal to the trigger price, tagged "sl" or "tp", and has
    the size of the market order submitted before it. *)
Theorem exit_orders_are_reduce_only (cfg : config) (client : exchange)
    (is_buy : bool) (asset : string) (position_size : Q) (w : world) :
  exists new,
    calls (snd (place_trade cfg client is_buy asset position_size w))
    = calls w ++ new /\
    forall a side sz px reduce_only t,
      In (COrder a side sz px reduce_only t) new ->
      a = asset /\ side = negb is_buy /\ reduce_only = true /\
      isMarket t = true /\ triggerPx t = px /\
      (tpsl t = "sl" \/ tpsl t = "tp") /\
      In (CMarketOpen asset is_buy sz) new.
Proof.
  rewrite place_trade_enter.
  destruct (enter_shape cfg client is_buy asset position_size w)
    as (b & sz0 & e & k & Hk & Hrun & _).
  rewrite Hrun. cbn [snd calls with_calls].
  eexists. split; [reflexivity|].
  intros a side sz px ro t Hin.
  assert (Hk' : k = 1%nat \/ k = 2%nat \/ k = 3%nat \/ k = 4%nat) by lia.
  unfold protocol, stop_loss_call, take_profit_call in *.
  destruct Hk' as [-> | [-> | [-> | ->]]]; cbn [firstn In] in Hin |- *;
    repeat (destruct Hin as [Hin|Hin]; try discriminate; try contradiction);
    injection Hin as <- <- <- <- <- <-; cbn [isMarket triggerPx tpsl];
    repeat split; auto.
Qed.

(** ** Truncation and rounding *)

Lemma py_int_floor (x : Q) : 0 <= x -> py_int x = Qfloor x.
Proof.
  destruct x as [n d]. unfold Qle, py_int, Qfloor. cbn. intro H.
  apply Z.quot_div_nonneg; lia.
Qed.

Lemma py_int_nonpos (x : Q) : x <= 0 -> (py_int x <= 0)%Z.
Proof.
  destruct x as [n d]. unfold Qle, py_int. cbn. intro H.
  rewrite <- (Z.opp_involutive n), Z.quot_opp_l by lia.
  pose proof (Z.quot_pos (- n) (Z.pos d)). lia.
Qed.

Lemma py_int_nonneg (x : Q) : 0 <= x -> (0 <= py_int x)%Z.
Proof.
  destruct x as [n d]. unfold Qle, py_int. cbn. intro H.
  apply Z.quot_pos; lia.
Qed.

(** A non-negative integer below [x] stays below [int(x)]; a non-negative
    integer above [x] stays above [int(x)]. *)
Lemma py_int_ge (x : Q) (n : Z) :
  (0 <= n)%Z -> inject_Z n <= x -> (n <= py_int x)%Z.
Proof.
  intros Hn H.
  assert (Hx : 0 <= x).
  { eapply Qle_trans; [|exact H]. change 0 with (inject_Z 0).
    now rewrite <- Zle_Qle. }
  rewrite (py_int_floor x Hx), <- (Qfloor_Z n). now apply Qfloor_resp_le.
Qed.

Lemma py_int_le (x : Q) (n : Z) :
  (0 <= n)%Z -> x <= inject_Z n -> (py_int x <= n)%Z.
Proof.
  intros Hn H. destruct (Qlt_le_dec x 0) as [Hneg|Hpos].
  - pose proof (py_int_nonpos x (Qlt_le_weak _ _ Hneg)). lia.
  - rewrite (py_int_floor x Hpos), <- (Qfloor_Z n). now apply Qfloor_resp_le.
Qed.

Lemma py_int_between (x : Q) (n : Z) :
  (0 <= n)%Z -> inject_Z n <= x -> x < inject_Z (n + 1) -> py_int x = n.
Proof.
  intros Hn Hlo Hhi.
  pose proof (py_int_ge x n Hn Hlo) as H1.
  assert (Hx : 0 <= x).
  { eapply Qle_trans; [|exact Hlo]. change 0 with (inject_Z 0).
    now rewrite <- Zle_Qle. }
  rewrite (py_int_floor x Hx) in *.
  assert (H2 : (Qfloor x < n + 1)%Z).
  { rewrite Zlt_Qlt. eapply Qle_lt_trans; [apply Qfloor_le|exact Hhi]. }
  lia.
Qed.

(** X7. For a non-negative entry price and non-negative stop-loss
    percentage and risk-reward ratio, the exit prices lie on the right sides
    of the entry: a long entry has stop-loss <= entry <= take-profit, a
    short entry has take-profit <= entry <= stop-loss. Truncation can make
    them meet the entry: with the source's 1% and 2%, the take-profit of a
    long entry below 50 and the stop-loss of a short entry below 100 are the
    entry price itself. *)
Theorem exit_prices_straddle_entry (cfg : config) (entry_price : Z) :
  (0 <= entry_price)%Z ->
  (0 <= STOP_LOSS_PERCENT cfg -> 0 <= RISK_REWARD_RATIO cfg ->
   (fst (exit_prices cfg true entry_price) <= entry_price
    <= snd (exit_prices cfg true entry_price))%Z /\
   (snd (exit_prices cfg false entry_price) <= entry_price
    <= fst (exit_prices cfg false entry_price))%Z)
  /\
  ((entry_price < 50)%Z ->
   snd (exit_prices source_config true entry_price) = entry_price)
  /\
  ((entry_price < 100)%Z ->
   fst (exit_prices source_config false entry_price) = entry_price).
Proof.
  intro He.
  assert (HeQ : 0 <= inject_Z entry_price).
  { change 0 with (inject_Z 0). now rewrite <- Zle_Qle. }
  split; [|split].
  - intros HS HR.
    assert (HT : 0 <= TAKE_PROFIT_PERCENT cfg).
    { unfold TAKE_PROFIT_PERCENT. now apply Qmult_le_0_compat. }
    assert (Hs : 0 <= inject_Z entry_price * (STOP_LOSS_PERCENT cfg / 100)).
    { apply Qmult_le_0_compat; [exact HeQ|].
      apply Qle_shift_div_l; [reflexivity|]. now rewrite Qmult_0_l. }
    assert (Ht : 0 <= inject_Z entry_price * (TAKE_PROFIT_PERCENT cfg / 100)).
    { apply Qmult_le_0_compat; [exact HeQ|].
      apply Qle_shift_div_l; [reflexivity|]. now rewrite Qmult_0_l. }
    unfold exit_prices. cbn [fst snd].
    repeat split.
    + apply py_int_le; [exact He|].
      setoid_replace (inject_Z entry_price * (1 - STOP_LOSS_PERCENT cfg / 100))
        with (inject_Z entry_price
              - inject_Z entry_price * (STOP_LOSS_PERCENT cfg / 100)) by (unfold Qdiv; ring).
      lra.
    + apply py_int_ge; [exact He|].
      setoid_replace (inject_Z entry_price * (1 + TAKE_PROFIT_PERCENT cfg / 100))
        with (inject_Z entry_price
              + inject_Z entry_price * (TAKE_PROFIT_PERCENT cfg / 100)) by (unfold Qdiv; ring).
      lra.
    + apply py_int_le; [exact He|].
      setoid_replace (inject_Z entry_price * (1 - TAKE_PROFIT_PERCENT cfg / 100))
        with (inject_Z entry_price
              - inject_Z entry_price * (TAKE_PROFIT_PERCENT cfg / 100)) by (unfold Qdiv; ring).
      lra.
    + apply py_int_ge; [exact He|].
      setoid_replace (inject_Z entry_price * (1 + STOP_LOSS_PERCENT cfg / 100))
        with (inject_Z entry_price
              + inject_Z entry_price * (STOP_LOSS_PERCENT cfg / 100)) by (unfold Qdiv; ring).
      lra.
  - intro Hlt.
    assert (HltQ : inject_Z entry_price < 50).
    { change 50 with (inject_Z 50). now rewrite <- Zlt_Qlt. }
    unfold exit_prices, TAKE_PROFIT_PERCENT. cbn [snd source_config
      STOP_LOSS_PERCENT RISK_REWARD_RATIO].
    apply py_int_between; [exact He| |].
    + setoid_replace (1 + 1 * 2 / 100) with (102 # 100) by reflexivity.
      lra.
    + rewrite inject_Z_plus.
      setoid_replace (1 + 1 * 2 / 100) with (102 # 100) by reflexivity.
      change (inject_Z 1) with 1. lra.
  - intro Hlt.
    assert (HltQ : inject_Z entry_price < 100).
    { change 100 with (inject_Z 100). now rewrite <- Zlt_Qlt. }
    unfold exit_prices. cbn [fst source_config STOP_LOSS_PERCENT].
    apply py_int_between; [exact He| |].
    + setoid_replace (1 + 1 / 100) with (101 # 100) by reflexivity.
      lra.
    + rewrite inject_Z_plus.
      setoid_replace (1 + 1 / 100) with (101 # 100) by reflexivity.
      change (inject_Z 1) with 1. lra.
Qed.

Lemma exit_prices_straddle_entry_witness :
  (fst (exit_prices source_config true 50000) <= 50000
   <= snd (exit_prices source_config true 50000))%Z
  /\ snd (exit_prices source_config true 49) = 49%Z
  /\ fst (exit_prices source_config false 99) = 99%Z.
Proof.
  split; [|split].
  - apply (proj1 (exit_prices_straddle_entry source_config 50000 ltac:(lia)));
      discriminate.
  - apply (proj2 (exit_prices_straddle_entry source_config 49 ltac:(lia))).
    lia.
  - apply (proj2 (exit_prices_straddle_entry source_config 99 ltac:(lia))).
    lia.
Defined.

Lemma round_half_even_close (y : Q) :
  y - (1 # 2) <= inject_Z (round_half_even y) /\
  inject_Z (round_half_even y) <= y + (1 # 2).
Proof.
  pose proof (Qfloor_le y) as Hlo. pose proof (Qlt_floor y) as Hhi.
  rewrite inject_Z_plus in Hhi. change (inject_Z 1) with 1 in Hhi.
  unfold round_half_even.
  destruct (Qcompare_spec (y - inject_Z (Qfloor y)) (1 # 2)) as [E|E|E].
  - destruct (Z.even (Qfloor y)).
    + split; lra.
    + rewrite inject_Z_plus. change (inject_Z 1) with 1. split; lra.
  - split; lra.
  - rewrite inject_Z_plus. change (inject_Z 1) with 1. split; lra.
Qed.

Lemma py_round_5_close (x : Q) :
  x - (1 # 200000) <= py_round x 5 /\ py_round x 5 <= x + (1 # 200000).
Proof.
  unfold py_round. cbn [Z.leb Z.compare].
  destruct (round_half_even_close (x * pow10 5)) as [Hlo Hhi].
  change (pow10 5) with 100000 in *.
  unfold Qdiv. change (/ 100000) with (1 # 100000).
  split; lra.
Qed.

(** ** Every cycle, whatever the exchange answers *)

Lemma log_log (w : world) (a b : call) :
  log b (log a w) = with_calls w [a; b].
Proof. unfold log, with_calls. cbn. now rewrite <- app_assoc. Qed.

Lemma protocol_prefix_no_sleep (cfg : config) (is_buy : bool) (asset : string)
    (sz : Q) (e : Z) (k : nat) :
  filter is_sleep (firstn k (protocol cfg is_buy asset sz e)) = [].
Proof.
  unfold protocol, stop_loss_call, take_profit_call.
  destruct k as [|[|[|[|[|k]]]]]; reflexivity.
Qed.

Lemma protocol_prefix_market_orders (cfg : config) (is_buy : bool)
    (asset : string) (sz : Q) (e : Z) (k : nat) :
  (2 <= k)%nat ->
  filter is_market_order (firstn k (protocol cfg is_buy asset sz e))
  = [CMarketOpen asset is_buy sz].
Proof.
  unfold protocol, stop_loss_call, take_profit_call.
  destruct k as [|[|[|[|[|k]]]]]; intro; try lia; reflexivity.
Qed.

(** A cycle is either quiet (no order; the window is left alone, or gets
    the current price appended) or a trading cycle (flat account, full
    window, breakout, sizing done: the order protocol runs, then the window
    is cleared and the price appended). It sleeps at most once. *)
Lemma cycle_summary (cfg : config) (client : exchange) (asset : string)
    (margin : Q) (public_address : string) (w : world) :
  exists r new ops,
    run_trading_strategy cfg client asset margin public_address w
    = (r, {| calls := calls w ++ new;
             last_prices := fold_left apply_op ops (last_prices w) |}) /\
    (List.length (filter is_sleep new) <= 1)%nat /\
    ((filter is_order new = [] /\
      (ops = [] \/
       exists balance p,
         flat_cycle client asset public_address w balance p /\
         ops = [Append p] /\ r = Ok tt /\
         ((len (last_prices w) < DON_MAX_PERIOD cfg)%nat \/
          (signal cfg (last_prices w) p = Ok NONE /\
           exists size, calculate_position_size cfg balance p = Ok size))))
     \/
     (exists (is_buy : bool) balance p size sz e k,
         flat_cycle client asset public_address w balance p /\
         signal cfg (last_prices w) p = Ok (if is_buy then LONG else SHORT) /\
         calculate_position_size cfg balance p = Ok size /\
         (1 <= k <= 4)%nat /\
         new = [CUserState public_address; CAllMids]
               ++ firstn k (protocol cfg is_buy asset sz e) /\
         ((2 <= k)%nat ->
          exists info, sz = py_round size (szDecimals info)) /\
         ops = [Clear; Append p] /\ r = Ok tt)).
Proof.
  unfold run_trading_strategy, bind at 1, fetch_user_state.
  destruct (get_user_state client (calls w) public_address) as [us|e] eqn:Hus.
  2:{ exists (Raise e), [CUserState public_address], []. cbn.
      repeat split; auto. }
  unfold bind at 1, fetch_all_mids. cbn [calls log].
  destruct (all_mids client (calls w ++ [CUserState public_address]))
    as [mids|e] eqn:Hmids.
  2:{ exists (Raise e), [CUserState public_address; CAllMids], [].
      rewrite log_log. cbn. repeat split; auto. }
  unfold bind at 1, lift at 1.
  change {| calls := calls w ++ [CUserState public_address];
            last_prices := last_prices w |}
    with (log (CUserState public_address) w).
  rewrite log_log.
  destruct (lookup_mid asset mids) as [p|e] eqn:Hp.
  2:{ exists (Raise e), [CUserState public_address; CAllMids], [].
      cbn. repeat split; auto. }
  destruct (has_open_position _) eqn:Hopenpos.
  { destruct (find _ (assetPositions us)) as [pos|].
    - unfold bind, lift. destruct (py_div _ _) as [ratio|e].
      + exists (Ok tt), [CUserState public_address; CAllMids;
                         CSleep (REQUEST_INTERVAL_SECONDS cfg)], [].
        unfold sleep, log, with_calls. cbn. rewrite <- app_assoc.
        repeat split; auto.
      + exists (Raise e), [CUserState public_address; CAllMids], [].
        cbn. repeat split; auto.
    - exists (Ok tt), [CUserState public_address; CAllMids], [].
      cbn. repeat split; auto. }
  assert (Hflat : flat_cycle client asset public_address w
                             (accountValue us) p).
  { exists us, mids. repeat split; assumption. }
  set (w1 := with_calls w [CUserState public_address; CAllMids]).
  rewrite breakout_step_by_signal.
  change (last_prices w1) with (last_prices w).
  destruct (len (last_prices w) <? DON_MAX_PERIOD cfg)%nat eqn:Hlen.
  { exists (Ok tt), [CUserState public_address; CAllMids], [Append p].
    cbn. split; [reflexivity|]. split; [lia|]. left. split; [reflexivity|].
    right. exists (accountValue us), p. repeat split; auto.
    left. now apply Nat.ltb_lt. }
  destruct (signal cfg (last_prices w) p) as [s|e] eqn:Hsig.
  2:{ exists (Raise e), [CUserState public_address; CAllMids], [].
      cbn. repeat split; auto. }
  destruct (calculate_position_size cfg (accountValue us) p) as [size|e]
    eqn:Hsize.
  2:{ exists (Raise e), [CUserState public_address; CAllMids], [].
      cbn. repeat split; auto. }
  destruct s.
  - exists (Ok tt), [CUserState public_address; CAllMids], [Append p].
    cbn. split; [reflexivity|]. split; [lia|]. left. split; [reflexivity|].
    right. exists (accountValue us), p. repeat split; auto.
    right. split; [exact Hsig|]. now exists size.
  - destruct (enter_shape cfg client true asset size w1)
      as (b & sz & e & k & Hk & Hrun & _ & Hk2 & _).
    rewrite buy_enter, Hrun.
    exists (Ok tt),
           ([CUserState public_address; CAllMids]
            ++ firstn k (protocol cfg true asset sz e)), [Clear; Append p].
    split.
    { unfold restarted, w1, with_calls. cbn [snd calls last_prices fold_left
        apply_op]. now rewrite <- app_assoc. }
    split.
    { rewrite filter_app, protocol_prefix_no_sleep. cbn. lia. }
    right. exists true, (accountValue us), p, size, sz, e, k.
    repeat split; auto; try lia.
    intro H2. destruct (Hk2 H2) as (info & _ & _ & Hsz). now exists info.
  - destruct (enter_shape cfg client false asset size w1)
      as (b & sz & e & k & Hk & Hrun & _ & Hk2 & _).
    rewrite sell_enter, Hrun.
    exists (Ok tt),
           ([CUserState public_address; CAllMids]
            ++ firstn k (protocol cfg false asset sz e)), [Clear; Append p].
    split.
    { unfold restarted, w1, with_calls. cbn [snd calls last_prices fold_left
        apply_op]. now rewrite <- app_assoc. }
    split.
    { rewrite filter_app, protocol_prefix_no_sleep. cbn. lia. }
    right. exists false, (accountValue us), p, size, sz, e, k.
    repeat split; auto; try lia.
    intro H2. destruct (Hk2 H2) as (info & _ & _ & Hsz). now exists info.
Qed.

Lemma loop_iteration_run (cfg : config) (client : exchange) (asset : string)
    (margin : Q) (public_address : string) (w : world) (r : res unit)
    (w' : world) :
  run_trading_strategy cfg client asset margin public_address w = (r, w') ->
  loop_iteration cfg client asset margin public_address w
  = (Ok tt, log (CSleep (REQUEST_INTERVAL_SECONDS cfg)) w').
Proof.
  intro H. unfold loop_iteration, try_except, bind. rewrite H.
  destruct r as [[]|e]; reflexivity.
Qed.

Lemma trading_loop_step (cfg : config) (client : exchange) (asset : string)
    (margin : Q) (public_address : string) (n : nat) (w : world)
    (r : res unit) (w' : world) :
  run_trading_strategy cfg client asset margin public_address w = (r, w') ->
  trading_loop cfg client asset margin public_address (S n) w
  = trading_loop cfg client asset margin public_address n
      (log (CSleep (REQUEST_INTERVAL_SECONDS cfg)) w').
Proof.
  intro H. cbn [trading_loop]. unfold bind at 1.
  now rewrite (loop_iteration_run _ _ _ _ _ _ _ _ H).
Qed.

Lemma filter_order_market (l : list call) :
  filter is_order l = [] -> filter is_market_order l = [].
Proof.
  induction l as [|c l IH]; [reflexivity|]. cbn [filter]. unfold is_order at 1.
  destruct (is_market_order c); cbn [orb]; [discriminate|].
  destruct (is_exit_order c); [discriminate|]. exact IH.
Qed.

(** X9. A cycle submits at most one market order, and submits an order only
    when the account is flat for the asset and the window it started with
    gives a breakout signal at the current mid price: the market order is a
    buy for LONG and a sell for SHORT. *)
Theorem orders_only_on_breakout (cfg : config) (client : exchange)
    (asset : string) (margin : Q) (public_address : string) (w : world) :
  exists new,
    calls (snd (run_trading_strategy cfg client asset margin
                  public_address w)) = calls w ++ new /\
    (List.length (filter is_market_order new) <= 1)%nat /\
    (filter is_order new <> [] ->
     exists (is_buy : bool) balance p sz,
       flat_cycle client asset public_address w balance p /\
       signal cfg (last_prices w) p = Ok (if is_buy then LONG else SHORT) /\
       filter is_market_order new = [CMarketOpen asset is_buy sz]).
Proof.
  destruct (cycle_summary cfg client asset margin public_address w)
    as (r & new & ops & Hrun & _ & Hcase).
  exists new. rewrite Hrun. cbn [snd calls]. split; [reflexivity|].
  destruct Hcase as [(Hq & _)|(b & balance & p & size & sz & e & k & Hflat
                                & Hsig & _ & Hk & -> & _)].
  - rewrite (filter_order_market _ Hq). split; [cbn; lia|]. congruence.
  - assert (Hk' : k = 1%nat \/ (2 <= k)%nat) by lia.
    destruct Hk' as [-> |Hk2].
    + split; [cbn; lia|]. intro H. exfalso. apply H. reflexivity.
    + assert (E : filter is_market_order
                    ([CUserState public_address; CAllMids]
                     ++ firstn k (protocol cfg b asset sz e))
                  = [CMarketOpen asset b sz]).
      { rewrite filter_app, protocol_prefix_market_orders by exact Hk2.
        reflexivity. }
      rewrite E. split; [cbn; lia|]. intros _.
      now exists b, balance, p, sz.
Qed.

Lemma len_append_le (d : deque) (x : Q) : (len (append d x) <= len d + 1)%nat.
Proof.
  unfold len, append. cbn [items].
  destruct (maxlen d <? _)%nat.
  - destruct (items d); cbn [app tl List.length]; [lia|].
    rewrite length_app. cbn [List.length]. lia.
  - rewrite length_app. cbn [List.length]. lia.
Qed.

Lemma trading_loop_warm_up (cfg : config) (client : exchange)
    (asset : string) (margin : Q) (public_address : string) (n : nat) :
  forall w,
    (len (last_prices w) + n <= DON_MAX_PERIOD cfg)%nat ->
    exists new,
      calls (snd (trading_loop cfg client asset margin public_address n w))
      = calls w ++ new /\
      filter is_order new = [].
Proof.
  induction n as [|n IH]; intros w Hlen.
  - exists []. cbn. now rewrite app_nil_r.
  - destruct (cycle_summary cfg client asset margin public_address w)
      as (r & new & ops & Hrun & _ & Hcase).
    rewrite (trading_loop_step _ _ _ _ _ _ _ _ _ Hrun).
    destruct Hcase as [(Hq & Hops)|(b & balance & p & size & sz & e & k & _
                                    & Hsig & _)].
    2:{ destruct (signal_trade_inv _ _ _ _ Hsig) as (Hfull & _).
        apply Nat.ltb_ge in Hfull. lia. }
    set (w1 := log _ _).
    assert (Hlen1 : (len (last_prices w1) + n <= DON_MAX_PERIOD cfg)%nat).
    { unfold w1. cbn [log last_prices].
      destruct Hops as [-> |(balance & p & _ & -> & _)];
        cbn [fold_left apply_op]; [lia|].
      pose proof (len_append_le (last_prices w) p). lia. }
    destruct (IH w1 Hlen1) as (new' & Hcalls & Hq').
    exists (new ++ [CSleep (REQUEST_INTERVAL_SECONDS cfg)] ++ new').
    split.
    + rewrite Hcalls. unfold w1. cbn [log calls].
      now rewrite <- !app_assoc.
    + rewrite !filter_app, Hq, Hq'. reflexivity.
Qed.

(** X10. Started by the main block with an empty window, the bot sends no
    order during its first [DON_MAX_PERIOD] cycles, whatever the exchange
    reports. *)
Theorem no_order_while_window_fills (cfg : config) (client : exchange)
    (public_address : string) (n : nat) (w : world) :
  (n <= DON_MAX_PERIOD cfg)%nat ->
  exists new,
    calls (snd (main cfg client public_address n w)) = calls w ++ new /\
    filter is_order new = [].
Proof.
  intro Hn. unfold main, try_except, bind, fetch_user_state, set_prices.
  destruct (get_user_state client (calls w) public_address) as [us|e].
  2:{ exists [CUserState public_address]. split; reflexivity. }
  set (w1 := {| calls := calls (log (CUserState public_address) w);
                last_prices := deque_new (DON_MAX_PERIOD cfg) |}).
  destruct (trading_loop_warm_up cfg client "BTC"
              (accountValue us * RISK_PER_TRADE_PERCENT cfg / 100)
              public_address n w1) as (new & Hcalls & Hq).
  { cbn. exact Hn. }
  destruct (trading_loop cfg client "BTC" _ public_address n w1) as [r w2].
  cbn [snd] in Hcalls.
  exists ([CUserState public_address] ++ new). split.
  - destruct r; cbn [snd ret]; rewrite Hcalls; unfold w1; cbn [calls log];
      now rewrite <- app_assoc.
  - rewrite filter_app, Hq. reflexivity.
Qed.

Lemma no_order_while_window_fills_witness :
  exists new,
    calls (snd (main source_config (accepting 1000 50000 5) "0xabc" 12
                     empty_world)) = calls empty_world ++ new /\
    filter is_order new = [].
Proof.
  apply (no_order_while_window_fills source_config (accepting 1000 50000 5)
           "0xabc" 12 empty_world).
  cbn. lia.
Defined.

Lemma trading_loop_frozen (cfg : config) (client : exchange)
    (asset : string) (margin : Q) (public_address : string) (n : nat) :
  STOP_LOSS_PERCENT cfg == 0 ->
  forall w,
    (DON_MAX_PERIOD cfg <= len (last_prices w))%nat ->
    exists new,
      snd (trading_loop cfg client asset margin public_address n w)
      = with_calls w new /\
      filter is_order new = [].
Proof.
  intros HS. induction n as [|n IH]; intros w Hfull.
  - exists []. unfold with_calls. cbn. rewrite app_nil_r. now destruct w.
  - destruct (cycle_summary cfg client asset margin public_address w)
      as (r & new & ops & Hrun & _ & Hcase).
    rewrite (trading_loop_step _ _ _ _ _ _ _ _ _ Hrun).
    assert (Hno : forall balance p size,
               calculate_position_size cfg balance p <> Ok size).
    { intros balance p size.
      destruct (sizing_try_zero cfg balance p (or_introl HS)) as [msg E].
      rewrite (handler_unbound _ _ _ _ E). discriminate. }
    assert (Hq : filter is_order new = [] /\ ops = []).
    { destruct Hcase as [(Hq & Hops)|(b & balance & p & size & sz & e & k & _
                                      & _ & Hsize & _)].
      - split; [exact Hq|].
        destruct Hops as [-> |(balance & p & _ & _ & _ & Hwhy)];
          [reflexivity|].
        destruct Hwhy as [Hlt|(_ & size & Hsize)]; [lia|].
        exfalso. exact (Hno _ _ _ Hsize).
      - exfalso. exact (Hno _ _ _ Hsize). }
    destruct Hq as [Hq ->]. cbn [fold_left].
    set (w1 := log _ _).
    destruct (IH w1) as (new' & Hsnd & Hq').
    { unfold w1. cbn [log last_prices]. exact Hfull. }
    exists (new ++ [CSleep (REQUEST_INTERVAL_SECONDS cfg)] ++ new').
    split.
    + rewrite Hsnd. unfold w1, with_calls. cbn [log calls last_prices].
      now rewrite <- !app_assoc.
    + rewrite !filter_app, Hq, Hq'. reflexivity.
Qed.

(** X11. With [STOP_LOSS_PERCENT] set to 0 and the window full, the loop
    goes on returning normally, whatever the exchange answers, without ever
    sending an order or changing the window. A cycle that finds the account
    flat and gets its price ends, after these two requests, in the
    [UnboundLocalError] of the sizing. *)
Theorem zero_stop_loss_freezes_strategy (cfg : config) (client : exchange)
    (asset : string) (margin : Q) (public_address : string) (n : nat)
    (w : world) :
  STOP_LOSS_PERCENT cfg == 0 ->
  (DON_MAX_PERIOD cfg <= len (last_prices w))%nat ->
  let run := trading_loop cfg client asset margin public_address n w in
  fst run = Ok tt /\
  last_prices (snd run) = last_prices w /\
  (exists new, calls (snd run) = calls w ++ new /\ filter is_order new = []) /\
  (forall balance current_price,
      (0 < len (last_prices w))%nat ->
      flat_cycle client asset public_address w balance current_price ->
      run_trading_strategy cfg client asset margin public_address w
      = (Raise (UnboundLocalError "min_position_size"),
         with_calls w [CUserState public_address; CAllMids])).
Proof.
  intros HS Hfull. cbv zeta.
  destruct (trading_loop_frozen cfg client asset margin public_address n HS
              w Hfull) as (new & Hsnd & Hq).
  split; [|split; [|split]].
  - clear. revert w. induction n as [|n IH]; intro w; [reflexivity|].
    destruct (run_trading_strategy cfg client asset margin public_address w)
      as [r w'] eqn:Hrun.
    rewrite (trading_loop_step _ _ _ _ _ _ _ _ _ Hrun). apply IH.
  - now rewrite Hsnd.
  - exists new. rewrite Hsnd. split; [reflexivity|exact Hq].
  - intros balance p Hlen Hflat.
    rewrite (run_trading_strategy_flat _ _ _ _ _ _ _ _ Hflat).
    rewrite breakout_step_by_signal. cbn [with_calls last_prices].
    assert (Hfull' : (len (last_prices w) <? DON_MAX_PERIOD cfg)%nat = false)
      by (apply Nat.ltb_ge; exact Hfull).
    rewrite Hfull'. unfold signal. rewrite Hfull'.
    assert (Hne : items (last_prices w) <> []).
    { intro E. unfold len in Hlen. rewrite E in Hlen. cbn in Hlen. lia. }
    destruct (py_min_max_spec (items (last_prices w)) Hne)
      as (lo & hi & Hmin & Hmax & _).
    rewrite Hmin, Hmax.
    destruct (sizing_try_zero cfg balance p (or_introl HS)) as [msg E].
    rewrite (handler_unbound _ _ _ _ E).
    destruct (Qltb hi p); [reflexivity|].
    destruct (Qltb p lo); reflexivity.
Qed.

Lemma zero_stop_loss_freezes_strategy_witness :
  last_prices
    (snd (trading_loop zero_stop_config (accepting 1000 101 5) "BTC" 20
                       "0xabc" 3 world_full))
  = last_prices world_full.
Proof.
  apply (zero_stop_loss_freezes_strategy zero_stop_config
           (accepting 1000 101 5) "BTC" 20 "0xabc" 3 world_full).
  - reflexivity.
  - cbn. lia.
Defined.

(** X12. The trading loop never stops on an error: each iteration returns
    normally whatever the exchange does, and sleeps once at its end and at
    most once more inside the cycle, so [n] iterations sleep between [n] and
    [2 n] times. *)
Theorem loop_contains_errors_and_sleeps (cfg : config) (client : exchange)
    (asset : string) (margin : Q) (public_address : string) (n : nat)
    (w : world) :
  let run := trading_loop cfg client asset margin public_address n w in
  fst run = Ok tt /\
  exists new,
    calls (snd run) = calls w ++ new /\
    (n <= List.length (filter is_sleep new) <= 2 * n)%nat.
Proof.
  cbv zeta. revert w. induction n as [|n IH]; intro w.
  - split; [reflexivity|]. exists []. cbn. split; [now rewrite app_nil_r|lia].
  - destruct (cycle_summary cfg client asset margin public_address w)
      as (r & new & ops & Hrun & Hsleep & _).
    rewrite (trading_loop_step _ _ _ _ _ _ _ _ _ Hrun).
    set (w1 := log _ _).
    destruct (IH w1) as (Hr & new' & Hcalls & Hcount).
    split; [exact Hr|].
    exists (new ++ [CSleep (REQUEST_INTERVAL_SECONDS cfg)] ++ new').
    split.
    + rewrite Hcalls. unfold w1. cbn [log calls]. now rewrite <- !app_assoc.
    + rewrite !filter_app, !length_app. cbn [filter is_sleep List.length].
      lia.
Qed.

(** ** Particular cycles *)

(** X13. With an open position in the asset (non-zero size) and a non-zero
    account value, the cycle only reports: it reads the account and the mid
    prices, sends no order, leaves the window as it is (the current price is
    not recorded), and sleeps one interval itself, so the loop iteration
    sleeps two. *)
Theorem open_position_cycle_only_reports (cfg : config) (client : exchange)
    (asset : string) (margin : Q) (public_address : string) (w : world)
    (us : user_state) (pos : position) (mids : list (string * Q)) (p : Q) :
  get_user_state client (calls w) public_address = Ok us ->
  find (fun q => String.eqb (coin q) asset) (assetPositions us) = Some pos ->
  ~ szi pos == 0 ->
  all_mids client (calls w ++ [CUserState public_address]) = Ok mids ->
  lookup_mid asset mids = Ok p ->
  ~ accountValue us == 0 ->
  let pause := CSleep (REQUEST_INTERVAL_SECONDS cfg) in
  run_trading_strategy cfg client asset margin public_address w
  = (Ok tt, with_calls w [CUserState public_address; CAllMids; pause])
  /\
  loop_iteration cfg client asset margin public_address w
  = (Ok tt, with_calls w [CUserState public_address; CAllMids; pause; pause]).
Proof.
  intros Hus Hpos Hszi Hmids Hp Hbal. cbv zeta.
  assert (Hrun : run_trading_strategy cfg client asset margin public_address w
                 = (Ok tt,
                    with_calls w [CUserState public_address; CAllMids;
                                  CSleep (REQUEST_INTERVAL_SECONDS cfg)])).
  { unfold run_trading_strategy, bind at 1, fetch_user_state. rewrite Hus.
    unfold bind at 1, fetch_all_mids. cbn [calls log]. rewrite Hmids.
    unfold bind at 1, lift at 1. rewrite Hp, Hpos.
    unfold has_open_position.
    destruct (Qeq_bool (szi pos) 0) eqn:E;
      [apply Qeq_bool_iff in E; contradiction|]. cbn [negb].
    unfold bind, lift, py_div.
    destruct (Qeq_bool (accountValue us) 0) eqn:E';
      [apply Qeq_bool_iff in E'; contradiction|].
    unfold sleep, log, with_calls. cbn. now rewrite <- !app_assoc. }
  split; [exact Hrun|].
  rewrite (loop_iteration_run _ _ _ _ _ _ _ _ Hrun).
  unfold log, with_calls. cbn. now rewrite <- !app_assoc.
Qed.

Lemma open_position_cycle_only_reports_witness :
  loop_iteration source_config (holding 1000 (1 # 100) 50000 50500) "BTC" 20
                 "0xabc" world_full
  = (Ok tt,
     with_calls world_full
       [CUserState "0xabc"; CAllMids; CSleep 30; CSleep 30]).
Proof.
  apply (open_position_cycle_only_reports source_config
           (holding 1000 (1 # 100) 50000 50500) "BTC" 20 "0xabc" world_full
           {| accountValue := 1000;
              assetPositions :=
                [ {| coin := "ETH"; szi := 0; entryPx := 3000;
                     liquidationPx := None |};
                  {| coin := "BTC"; szi := 1 # 100; entryPx := 50000;
                     liquidationPx := Some 40000 |} ] |}
           {| coin := "BTC"; szi := 1 # 100; entryPx := 50000;
              liquidationPx := Some 40000 |}
           [("ETH", 3000); ("BTC", 50500)] 50500).
  - reflexivity.
  - reflexivity.
  - intro H. vm_compute in H. discriminate.
  - reflexivity.
  - reflexivity.
  - intro H. vm_compute in H. discriminate.
Defined.

(** X14. With an open position and an account value of 0 the profit
    percentage divides by zero: the cycle raises [ZeroDivisionError] before
    its own sleep, and the loop iteration absorbs it and sleeps once. *)
Theorem open_position_zero_balance_raises (cfg : config) (client : exchange)
    (asset : string) (margin : Q) (public_address : string) (w : world)
    (us : user_state) (pos : position) (mids : list (string * Q)) (p : Q) :
  get_user_state client (calls w) public_address = Ok us ->
  find (fun q => String.eqb (coin q) asset) (assetPositions us) = Some pos ->
  ~ szi pos == 0 ->
  all_mids client (calls w ++ [CUserState public_address]) = Ok mids ->
  lookup_mid asset mids = Ok p ->
  accountValue us == 0 ->
  run_trading_strategy cfg client asset margin public_address w
  = (Raise ZeroDivisionError,
     with_calls w [CUserState public_address; CAllMids])
  /\
  loop_iteration cfg client asset margin public_address w
  = (Ok tt,
     with_calls w [CUserState public_address; CAllMids;
                   CSleep (REQUEST_INTERVAL_SECONDS cfg)]).
Proof.
  intros Hus Hpos Hszi Hmids Hp Hbal.
  assert (Hrun : run_trading_strategy cfg client asset margin public_address w
                 = (Raise ZeroDivisionError,
                    with_calls w [CUserState public_address; CAllMids])).
  { unfold run_trading_strategy, bind at 1, fetch_user_state. rewrite Hus.
    unfold bind at 1, fetch_all_mids. cbn [calls log]. rewrite Hmids.
    unfold bind at 1, lift at 1. rewrite Hp, Hpos.
    unfold has_open_position.
    destruct (Qeq_bool (szi pos) 0) eqn:E;
      [apply Qeq_bool_iff in E; contradiction|]. cbn [negb].
    unfold bind, lift, py_div.
    apply Qeq_bool_iff in Hbal. rewrite Hbal.
    unfold log, with_calls. cbn. now rewrite <- !app_assoc. }
  split; [exact Hrun|].
  rewrite (loop_iteration_run _ _ _ _ _ _ _ _ Hrun).
  unfold log, with_calls. cbn. now rewrite <- !app_assoc.
Qed.

Lemma open_position_zero_balance_raises_witness :
  fst (run_trading_strategy source_config (holding 0 (1 # 100) 50000 50500)
         "BTC" 20 "0xabc" world_full) = Raise ZeroDivisionError.
Proof.
  refine (f_equal fst
            (proj1 (open_position_zero_balance_raises source_config
                      (holding 0 (1 # 100) 50000 50500) "BTC" 20 "0xabc"
                      world_full
                      {| accountValue := 0;
                         assetPositions :=
                           [ {| coin := "ETH"; szi := 0; entryPx := 3000;
                                liquidationPx := None |};
                             {| coin := "BTC"; szi := 1 # 100;
                                entryPx := 50000;
                                liquidationPx := Some 40000 |} ] |}
                      {| coin := "BTC"; szi := 1 # 100; entryPx := 50000;
                         liquidationPx := Some 40000 |}
                      [("ETH", 3000); ("BTC", 50500)] 50500
                      _ _ _ _ _ _))).
  - reflexivity.
  - reflexivity.
  - intro H. vm_compute in H. discriminate.
  - reflexivity.
  - reflexivity.
  - reflexivity.
Defined.

(** X15. With a flat account, a full window and a current price inside the
    channel (signal NONE), and a sizing that succeeds, the cycle sends no
    order and slides the window: the oldest price leaves and the current
    price enters. *)
Theorem in_channel_price_slides_window (cfg : config) (client : exchange)
    (asset : string) (margin : Q) (public_address : string) (w : world)
    (balance p : Q) :
  flat_cycle client asset public_address w balance p ->
  maxlen (last_prices w) = DON_MAX_PERIOD cfg ->
  len (last_prices w) = DON_MAX_PERIOD cfg ->
  signal cfg (last_prices w) p = Ok NONE ->
  ~ STOP_LOSS_PERCENT cfg == 0 -> ~ p == 0 ->
  let run := run_trading_strategy cfg client asset margin public_address w in
  exists oldest rest,
    items (last_prices w) = oldest :: rest /\
    fst run = Ok tt /\
    calls (snd run) = calls w ++ [CUserState public_address; CAllMids] /\
    items (last_prices (snd run)) = rest ++ [p] /\
    maxlen (last_prices (snd run)) = DON_MAX_PERIOD cfg.
Proof.
  intros Hflat Hmax Hfull Hsig HS HP. cbv zeta.
  rewrite (run_trading_strategy_flat cfg _ _ margin _ _ _ _ Hflat).
  rewrite breakout_step_by_signal. cbn [with_calls last_prices].
  rewrite Hsig, (calculate_position_size_ok cfg balance p HS HP).
  assert (Hne : items (last_prices w) <> []).
  { intro E. unfold signal, len in Hsig. rewrite E in Hsig.
    unfold len in Hfull. rewrite E in Hfull. cbn in Hfull.
    rewrite <- Hfull in Hsig. cbn in Hsig. discriminate. }
  assert (Hpos : (0 < maxlen (last_prices w))%nat).
  { rewrite Hmax, <- Hfull. unfold len.
    destruct (items (last_prices w)); [congruence|cbn; lia]. }
  destruct (append_full (last_prices w) p Hpos) as (oldest & rest & E & Happ);
    [congruence|].
  exists oldest, rest. split; [exact E|].
  destruct (len (last_prices w) <? DON_MAX_PERIOD cfg)%nat;
    cbn [fst snd extended calls last_prices];
    repeat split; try assumption.
Qed.

Lemma in_channel_price_slides_window_witness :
  items (last_prices
           (snd (run_trading_strategy source_config (accepting 1000 100 5)
                   "BTC" 20 "0xabc"
                   {| calls := [];
                      last_prices :=
                        {| maxlen := 12;
                           items := [90; 110; 100; 100; 100; 100;
                                     100; 100; 100; 100; 100; 100] |} |})))
  = [110; 100; 100; 100; 100; 100; 100; 100; 100; 100; 100; 100].
Proof.
  destruct (in_channel_price_slides_window source_config
              (accepting 1000 100 5) "BTC" 20 "0xabc"
              {| calls := [];
                 last_prices :=
                   {| maxlen := 12;
                      items := [90; 110; 100; 100; 100; 100;
                                100; 100; 100; 100; 100; 100] |} |}
              1000 100) as (oldest & rest & E & _ & _ & Hitems & _).
  - cycle_is_flat 1000 100.
  - reflexivity.
  - reflexivity.
  - reflexivity.
  - intro H. vm_compute in H. discriminate.
  - intro H. vm_compute in H. discriminate.
  - cbn [items last_prices] in E. injection E as <- <-. exact Hitems.
Defined.

(** X16. Neither the leverage cap nor the margin computed at start-up is
    ever consulted: the loop behaves the same for every value of
    [MAX_LEVERAGE] and of [margin_per_position]. *)
Theorem leverage_and_margin_unused (cfg : config) (leverage : Q)
    (client : exchange) (asset : string) (margin margin' : Q)
    (public_address : string) (n : nat) (w : world) :
  trading_loop (set_leverage cfg leverage) client asset margin
               public_address n w
  = trading_loop cfg client asset margin' public_address n w.
Proof.
  revert w. induction n as [|n IH]; intro w; [reflexivity|].
  cbn [trading_loop]. unfold bind.
  change (loop_iteration (set_leverage cfg leverage) client asset margin
                         public_address w)
    with (loop_iteration cfg client asset margin' public_address w).
  destruct (loop_iteration cfg client asset margin' public_address w)
    as [[[]|e] w1]; [apply IH|reflexivity].
Qed.

(** X17. The main block: if the initial balance request fails nothing else
    happens, no cycle runs. Otherwise the loop runs for BTC on a fresh empty
    window of capacity [DON_MAX_PERIOD] (whatever window existed before is
    dropped), and the window never holds more than that many prices. *)
Theorem main_startup (cfg : config) (client : exchange)
    (public_address : string) (n : nat) (w : world) :
  (forall e,
      get_user_state client (calls w) public_address = Raise e ->
      main cfg client public_address n w
      = (Ok tt, with_calls w [CUserState public_address]))
  /\
  (forall us,
      get_user_state client (calls w) public_address = Ok us ->
      main cfg client public_address n w
      = trading_loop cfg client "BTC"
          (accountValue us * RISK_PER_TRADE_PERCENT cfg / 100)
          public_address n
          {| calls := calls w ++ [CUserState public_address];
             last_prices := deque_new (DON_MAX_PERIOD cfg) |}
      /\ (len (last_prices (snd (main cfg client public_address n w)))
          <= DON_MAX_PERIOD cfg)%nat).
Proof.
  split.
  - intros e H. unfold main, try_except, bind, fetch_user_state.
    now rewrite H.
  - intros us H.
    set (w1 := {| calls := calls w ++ [CUserState public_address];
                  last_prices := deque_new (DON_MAX_PERIOD cfg) |}).
    destruct (trading_loop_window_bounded cfg client "BTC"
                (accountValue us * RISK_PER_TRADE_PERCENT cfg / 100)
                public_address n w1) as (Hr & _ & Hl).
    { cbn. lia. }
    assert (E : main cfg client public_address n w
                = trading_loop cfg client "BTC"
                    (accountValue us * RISK_PER_TRADE_PERCENT cfg / 100)
                    public_address n w1).
    { unfold main, try_except, bind, fetch_user_state, set_prices.
      rewrite H. cbn [calls log]. fold w1.
      destruct (trading_loop cfg client "BTC" _ public_address n w1)
        as [r w2]. cbn [fst] in Hr. now subst r. }
    split; [exact E|]. rewrite E. exact Hl.
Qed.

Lemma main_startup_witness :
  main source_config unreachable "0xabc" 5 empty_world
  = (Ok tt, with_calls empty_world [CUserState "0xabc"]).
Proof.
  apply (proj1 (main_startup source_config unreachable "0xabc" 5 empty_world)
               (ExchangeError "timeout")).
  reflexivity.
Defined.

(** * Binary64 against exact arithmetic *)

Lemma round_half_even_comp (x y : Q) :
  x == y -> round_half_even x = round_half_even y.
Proof.
  intro H. unfold round_half_even.
  assert (Hf : Qfloor x = Qfloor y) by (now rewrite H).
  rewrite Hf.
  assert (Hc : Qcompare (x - inject_Z (Qfloor y)) (1 # 2)
               = Qcompare (y - inject_Z (Qfloor y)) (1 # 2))
    by (now rewrite H).
  now rewrite Hc.
Qed.

Lemma round_half_even_near (z : Q) (n : Z) :
  inject_Z n - (1 # 2) < z -> z < inject_Z n + (1 # 2) ->
  round_half_even z = n.
Proof.
  intros Hlo Hhi. destruct (round_half_even_close z) as [H1 H2].
  assert (Ha : (n - 1 < round_half_even z)%Z).
  { replace (round_half_even z) with (round_half_even z - 1 + 1)%Z by lia.
    apply Z.add_lt_mono_r with (p := 1%Z).
    replace (n - 1 + 1)%Z with n by lia.
    rewrite Zlt_Qlt, inject_Z_plus.
    replace (round_half_even z - 1 + 1)%Z with (round_half_even z) by lia.
    change (inject_Z 1) with 1. lra. }
  assert (Hb : (round_half_even z < n + 1)%Z).
  { rewrite Zlt_Qlt, inject_Z_plus. change (inject_Z 1) with 1. lra. }
  lia.
Qed.

Lemma round_half_even_Z (n : Z) : round_half_even (inject_Z n) = n.
Proof. apply round_half_even_near; lra. Qed.

Lemma Qlog2_floor_spec (x : Q) :
  1 <= x ->
  let k := Qlog2_floor x in
  (0 <= k)%Z /\ inject_Z (2 ^ k) <= x /\ x < inject_Z (2 ^ (k + 1)).
Proof.
  intro Hx. cbv zeta. unfold Qlog2_floor.
  rewrite (proj2 (Qle_bool_iff 1 x) Hx).
  assert (Hf : (1 <= Qfloor x)%Z).
  { change 1%Z with (Qfloor 1). now apply Qfloor_resp_le. }
  destruct (Z.log2_spec (Qfloor x)) as [Hlo Hhi]; [lia|].
  split; [apply Z.log2_nonneg|]. split.
  - eapply Qle_trans; [|apply Qfloor_le]. now rewrite <- Zle_Qle.
  - eapply Qlt_le_trans; [apply Qlt_floor|].
    rewrite <- Zle_Qle. unfold Z.succ in Hhi. lia.
Qed.

Lemma pow2_neg (j : Z) :
  (0 <= j)%Z -> 2 ^ (- j) == / inject_Z (2 ^ j).
Proof.
  intro Hj. rewrite Qpower_opp. apply Qinv_comp.
  rewrite Zpower_Qpower by exact Hj. reflexivity.
Qed.

(** The shape of [b64 x] for [1 <= x < 2^53]: the mantissa is [x] scaled by
    a power of two [s = 2^j] into [[2^52, 2^53)] and rounded. *)
Lemma b64_normal (x : Q) :
  1 <= x -> x < inject_Z (2 ^ 53) ->
  exists j : Z,
    (0 <= j <= 52)%Z /\
    let s := inject_Z (2 ^ j) in
    1 <= s /\
    inject_Z (2 ^ 52) <= x * s /\ x * s < inject_Z (2 ^ 53) /\
    b64 x == inject_Z (round_half_even (x * s)) / s.
Proof.
  intros Hlo Hhi.
  destruct (Qlog2_floor_spec x Hlo) as (Hk0 & Hk1 & Hk2).
  set (k := Qlog2_floor x) in *.
  assert (Hk : (k <= 52)%Z).
  { assert (H : (2 ^ k < 2 ^ 53)%Z).
    { rewrite Zlt_Qlt. eapply Qle_lt_trans; eassumption. }
    apply Z.pow_lt_mono_r_iff in H; lia. }
  exists (52 - k)%Z. split; [lia|]. cbv zeta.
  set (j := (52 - k)%Z).
  assert (Hj : (0 <= j)%Z) by (unfold j; lia).
  assert (Hs : (0 < 2 ^ j)%Z) by (apply Z.pow_pos_nonneg; lia).
  assert (HsQ : 0 < inject_Z (2 ^ j)).
  { change 0 with (inject_Z 0). now rewrite <- Zlt_Qlt. }
  assert (Hprod : (2 ^ k * 2 ^ j = 2 ^ 52)%Z).
  { rewrite <- Z.pow_add_r by lia. f_equal. unfold j. lia. }
  assert (Hprod' : (2 ^ (k + 1) * 2 ^ j = 2 ^ 53)%Z).
  { rewrite <- Z.pow_add_r by lia. f_equal. unfold j. lia. }
  split; [|split; [|split]].
  - change 1 with (inject_Z 1). rewrite <- Zle_Qle. lia.
  - rewrite <- Hprod, inject_Z_mult.
    apply Qmult_le_compat_r; [exact Hk1|apply Qlt_le_weak; exact HsQ].
  - rewrite <- Hprod', inject_Z_mult.
    apply Qmult_lt_compat_r; [exact HsQ|exact Hk2].
  - unfold b64.
    assert (Hx0 : Qeq_bool x 0 = false).
    { destruct (Qeq_bool x 0) eqn:E; [|reflexivity].
      apply Qeq_bool_iff in E. lra. }
    assert (Hxp : Qle_bool 0 x = true).
    { apply Qle_bool_iff. lra. }
    rewrite Hx0, Hxp. cbv zeta. fold k.
    rewrite Z.max_l by lia.
    assert (He : 2 ^ (k - 52) == / inject_Z (2 ^ j)).
    { replace (k - 52)%Z with (- j)%Z by (unfold j; lia).
      now apply pow2_neg. }
    assert (Hm : round_half_even (x / 2 ^ (k - 52))
                 = round_half_even (x * inject_Z (2 ^ j))).
    { apply round_half_even_comp. unfold Qdiv. rewrite He.
      now rewrite Qinv_involutive. }
    rewrite Hm, He. reflexivity.
Qed.

(** Integers below [2^53] are binary64 values. *)
Lemma b64_int (n : Z) :
  (1 <= n < 2 ^ 53)%Z -> b64 (inject_Z n) == inject_Z n.
Proof.
  intros [Hlo Hhi].
  destruct (b64_normal (inject_Z n)) as (j & Hj & Hs & _ & _ & Hb).
  - change 1 with (inject_Z 1). now rewrite <- Zle_Qle.
  - now rewrite <- Zlt_Qlt.
  - cbv zeta in Hs, Hb. rewrite Hb.
    rewrite <- inject_Z_mult, round_half_even_Z, inject_Z_mult.
    apply Qdiv_mult_l. lra.
Qed.

Lemma Qlog2_floor_pow (x : Q) :
  0 < x ->
  2 ^ Qlog2_floor x <= x /\ x < 2 ^ (Qlog2_floor x + 1).
Proof.
  intro Hx. destruct (Qlt_le_dec x 1) as [Hlt|Hge].
  - unfold Qlog2_floor.
    assert (Hb : Qle_bool 1 x = false).
    { destruct (Qle_bool 1 x) eqn:E; [|reflexivity].
      apply Qle_bool_iff in E. lra. }
    rewrite Hb.
    set (m := Qceiling (/ x)).
    assert (Hinv : 1 < / x).
    { apply Qlt_shift_inv_l; [exact Hx|lra]. }
    pose proof (Qle_ceiling (/ x)) as Hc1.
    pose proof (Qceiling_lt (/ x)) as Hc2. fold m in Hc1, Hc2.
    assert (Hm : (1 < m)%Z).
    { rewrite Zlt_Qlt. change (inject_Z 1) with 1. lra. }
    destruct (Z.log2_up_spec m Hm) as [Hl1 Hl2].
    set (L := Z.log2_up m) in *.
    assert (HL : (0 < L)%Z) by (apply Z.log2_up_pos; exact Hm).
    assert (Hp : forall j, (0 <= j)%Z -> 2 ^ (- j) == / inject_Z (2 ^ j)).
    { intros j Hj. now apply pow2_neg. }
    assert (Hpos : forall j, (0 <= j)%Z -> 0 < inject_Z (2 ^ j)).
    { intros j Hj. change 0 with (inject_Z 0). rewrite <- Zlt_Qlt.
      apply Z.pow_pos_nonneg; lia. }
    split.
    + rewrite (Hp L) by lia.
      apply Qle_shift_inv_r; [apply Hpos; lia|].
      assert (H1 : / x <= inject_Z (2 ^ L)).
      { eapply Qle_trans; [exact Hc1|]. now rewrite <- Zle_Qle. }
      assert (H2 : / x * x == 1) by (rewrite Qmult_comm; apply Qmult_inv_r; lra).
      assert (H3 : / x * x <= inject_Z (2 ^ L) * x)
        by (apply Qmult_le_compat_r; [exact H1|lra]).
      lra.
    + replace (- L + 1)%Z with (- (L - 1))%Z by lia.
      rewrite (Hp (L - 1)%Z) by lia.
      apply Qlt_shift_inv_l; [apply Hpos; lia|].
      assert (H1 : inject_Z (2 ^ (L - 1)) < / x).
      { eapply Qle_lt_trans; [|exact Hc2]. rewrite <- Zle_Qle.
        unfold Z.pred in Hl1. replace (L + -1)%Z with (L - 1)%Z in Hl1 by lia.
        lia. }
      assert (H2 : / x * x == 1) by (rewrite Qmult_comm; apply Qmult_inv_r; lra).
      assert (H3 : inject_Z (2 ^ (L - 1)) * x < / x * x)
        by (apply Qmult_lt_compat_r; [exact Hx|exact H1]).
      lra.
  - destruct (Qlog2_floor_spec x Hge) as (Hk0 & Hk1 & Hk2).
    fold (Qlog2_floor x) in *. set (k := Qlog2_floor x) in *.
    assert (E : forall j, (0 <= j)%Z -> 2 ^ j == inject_Z (2 ^ j)).
    { intros j Hj. rewrite Zpower_Qpower by exact Hj. reflexivity. }
    rewrite (E k), (E (k + 1)%Z) by lia. split; assumption.
Qed.

Lemma b64_error (x : Q) :
  2 ^ (-1022) <= x ->
  x - x * (1 # 9007199254740992) <= b64 x /\
  b64 x <= x + x * (1 # 9007199254740992).
Proof.
  intro Hmin.
  assert (Hx : 0 < x).
  { eapply Qlt_le_trans; [|exact Hmin]. apply Qpower_0_lt. reflexivity. }
  destruct (Qlog2_floor_pow x Hx) as [Hk1 Hk2].
  set (k := Qlog2_floor x) in *.
  assert (Hk : (-1022 <= k)%Z).
  { assert (H : 2 ^ (-1022) < 2 ^ (k + 1)) by (eapply Qle_lt_trans; eassumption).
    apply Qpower_lt_compat_l_inv in H; [lia|reflexivity]. }
  unfold b64.
  assert (Hx0 : Qeq_bool x 0 = false).
  { destruct (Qeq_bool x 0) eqn:E; [|reflexivity].
    apply Qeq_bool_iff in E. lra. }
  assert (Hxp : Qle_bool 0 x = true) by (apply Qle_bool_iff; lra).
  rewrite Hx0, Hxp. cbv zeta. fold k. rewrite Z.max_l by lia.
  set (u := 2 ^ (k - 52)).
  assert (Hu : 0 < u) by (apply Qpower_0_lt; reflexivity).
  assert (Hku : 2 ^ k == u * 4503599627370496).
  { unfold u. replace k with (k - 52 + 52)%Z at 1 by lia.
    rewrite Qpower_plus by discriminate. reflexivity. }
  destruct (round_half_even_close (x / u)) as [H1 H2].
  set (M := inject_Z (round_half_even (x / u))) in *.
  assert (Hxu : x / u * u == x)
    by (rewrite Qmult_comm; apply Qmult_div_r; lra).
  assert (H1' : (x / u - (1 # 2)) * u <= M * u)
    by (apply Qmult_le_compat_r; [exact H1|lra]).
  assert (H2' : M * u <= (x / u + (1 # 2)) * u)
    by (apply Qmult_le_compat_r; [exact H2|lra]).
  split; lra.
Qed.

(** A value at least one unit in the last place away from the integers
    around it is rounded to a value with the same integer part. *)
Lemma b64_same_integer_part (y : Q) (K : Z) :
  1 <= y -> y < inject_Z (2 ^ 53) -> (0 <= K)%Z ->
  inject_Z K + y * (1 # 4503599627370496) <= y ->
  y + y * (1 # 4503599627370496) < inject_Z (K + 1) ->
  py_int (b64 y) = K.
Proof.
  intros H1 H2 HK Hlo Hhi.
  destruct (b64_normal y H1 H2) as (j & Hj & Hs & Hu1 & Hu2 & Hb).
  cbv zeta in *. set (s := inject_Z (2 ^ j)) in *.
  destruct (round_half_even_close (y * s)) as [Hm1 Hm2].
  set (M := inject_Z (round_half_even (y * s))) in *.
  change (inject_Z (2 ^ 52)) with 4503599627370496 in Hu1.
  assert (Hs0 : 0 < s) by lra.
  assert (Hlo' : (inject_Z K + y * (1 # 4503599627370496)) * s <= y * s)
    by (apply Qmult_le_compat_r; [exact Hlo|lra]).
  assert (Hhi' : (y + y * (1 # 4503599627370496)) * s < inject_Z (K + 1) * s)
    by (apply Qmult_lt_compat_r; [exact Hs0|exact Hhi]).
  apply py_int_between; [exact HK| |]; rewrite Hb.
  - apply Qle_shift_div_l; [exact Hs0|]. lra.
  - apply Qlt_shift_div_r; [exact Hs0|]. lra.
Qed.

(** A value within a quarter of a unit in the last place of an integer is
    rounded to that integer. *)
Lemma b64_to_near_integer (y : Q) (K : Z) :
  1 <= y -> y < inject_Z (2 ^ 53) ->
  (y - inject_Z K) * 18014398509481984 < y ->
  (inject_Z K - y) * 18014398509481984 < y ->
  b64 y == inject_Z K.
Proof.
  intros H1 H2 Hlo Hhi.
  destruct (b64_normal y H1 H2) as (j & Hj & Hs & Hu1 & Hu2 & Hb).
  cbv zeta in *. set (s := inject_Z (2 ^ j)) in *.
  change (inject_Z (2 ^ 53)) with 9007199254740992 in Hu2.
  assert (Hs0 : 0 < s) by lra.
  assert (Hlo' : (y - inject_Z K) * 18014398509481984 * s < y * s)
    by (apply Qmult_lt_compat_r; [exact Hs0|exact Hlo]).
  assert (Hhi' : (inject_Z K - y) * 18014398509481984 * s < y * s)
    by (apply Qmult_lt_compat_r; [exact Hs0|exact Hhi]).
  assert (Hm : round_half_even (y * s) = (K * 2 ^ j)%Z).
  { apply round_half_even_near; rewrite inject_Z_mult; fold s; lra. }
  rewrite Hb, Hm, inject_Z_mult. fold s. apply Qdiv_mult_l. lra.
Qed.

Lemma py_int_exact_percent (entry a : Z) :
  (0 <= entry)%Z -> (0 <= a)%Z ->
  py_int (inject_Z entry * (a # 100)) = (entry * a / 100)%Z.
Proof.
  intros He Ha. unfold py_int. cbn.
  rewrite Z.quot_div_nonneg by nia. reflexivity.
Qed.

(** [int(entry * c)] on floats, for a float [c] next to [a/100], against
    the exact [entry * a / 100]. *)
Ltac percent_agrees entry a :=
  let q := fresh "q" in
  let Hq := fresh "Hq" in
  intros [Hlo Hhi];
  assert (Hq : b64 (inject_Z entry) == inject_Z entry)
    by (apply b64_int; lia);
  assert (Hq2 : 2 <= inject_Z entry)
    by (change 2 with (inject_Z 2); rewrite <- Zle_Qle; exact Hlo);
  assert (Hq13 : inject_Z entry <= 10000000000000)
    by (change 10000000000000 with (inject_Z (10 ^ 13));
        rewrite <- Zle_Qle; exact Hhi);
  pose proof (Z.div_mod (entry * a) 100 ltac:(lia)) as Hdiv;
  pose proof (Z.mod_pos_bound (entry * a) 100 ltac:(lia)) as Hmod;
  set (K := (entry * a / 100)%Z) in *;
  set (r := ((entry * a) mod 100)%Z) in *;
  assert (HK : (0 <= K)%Z) by (unfold K; apply Z.div_pos; lia);
  assert (HdivQ : inject_Z entry * inject_Z a
                  == 100 * inject_Z K + inject_Z r)
    by (rewrite <- inject_Z_mult, Hdiv, inject_Z_plus, inject_Z_mult;
        reflexivity);
  change (inject_Z a) with (a # 1) in HdivQ;
  assert (Hr0 : 0 <= inject_Z r)
    by (change 0 with (inject_Z 0); rewrite <- Zle_Qle; lia);
  assert (E : (r = 0)%Z \/ (1 <= r <= 99)%Z) by lia;
  destruct E as [E|E];
  [ assert (Hr : inject_Z r == 0) by (rewrite E; reflexivity);
    apply py_int_between; [exact HK| |];
    (rewrite (b64_to_near_integer _ K);
     [ first [ apply Qle_refl | rewrite inject_Z_plus;
                                 change (inject_Z 1) with 1; lra ]
     | rewrite Hq; lra
     | change (inject_Z (2 ^ 53)) with 9007199254740992; rewrite Hq; lra
     | rewrite Hq; lra
     | rewrite Hq; lra ])
  | assert (Hr1 : 1 <= inject_Z r)
      by (change 1 with (inject_Z 1); rewrite <- Zle_Qle; lia);
    assert (Hr99 : inject_Z r <= 99)
      by (change 99 with (inject_Z 99); rewrite <- Zle_Qle; lia);
    apply b64_same_integer_part;
    [ rewrite Hq; lra
    | change (inject_Z (2 ^ 53)) with 9007199254740992; rewrite Hq; lra
    | exact HK
    | rewrite Hq; lra
    | rewrite inject_Z_plus; change (inject_Z 1) with 1; rewrite Hq; lra ] ].

Lemma stop_long_agrees (entry : Z) :
  (2 <= entry <= 10 ^ 13)%Z ->
  py_int (b64 (b64 (inject_Z entry)
               * (8917127262193582 # 9007199254740992)))
  = (entry * 99 / 100)%Z.
Proof. percent_agrees entry 99%Z. Qed.

Lemma take_long_agrees (entry : Z) :
  (2 <= entry <= 10 ^ 13)%Z ->
  py_int (b64 (b64 (inject_Z entry)
               * (4593671619917906 # 4503599627370496)))
  = (entry * 102 / 100)%Z.
Proof. percent_agrees entry 102%Z. Qed.

Lemma stop_short_agrees (entry : Z) :
  (2 <= entry <= 10 ^ 13)%Z ->
  py_int (b64 (b64 (inject_Z entry)
               * (4548635623644201 # 4503599627370496)))
  = (entry * 101 / 100)%Z.
Proof. percent_agrees entry 101%Z. Qed.

Lemma take_short_agrees (entry : Z) :
  (2 <= entry <= 10 ^ 13)%Z ->
  py_int (b64 (b64 (inject_Z entry)
               * (8827055269646172 # 9007199254740992)))
  = (entry * 98 / 100)%Z.
Proof. percent_agrees entry 98%Z. Qed.

Lemma py_int_comp_nonneg (x y : Q) : 0 <= x -> x == y -> py_int x = py_int y.
Proof.
  intros Hx E. rewrite (py_int_floor x Hx), (py_int_floor y) by (now rewrite <- E).
  now rewrite E.
Qed.

Lemma py_int_exact (entry a : Z) (c : Q) :
  (0 <= entry)%Z -> (0 <= a)%Z -> c == a # 100 ->
  py_int (inject_Z entry * c) = (entry * a / 100)%Z.
Proof.
  intros He Ha Hc. rewrite <- (py_int_exact_percent entry a He Ha).
  assert (HeQ : 0 <= inject_Z entry)
    by (change 0 with (inject_Z 0); now rewrite <- Zle_Qle).
  assert (Hc0 : 0 <= c).
  { rewrite Hc. unfold Qle. cbn. lia. }
  apply py_int_comp_nonneg; [now apply Qmult_le_0_compat|now rewrite Hc].
Qed.

(** For the source's settings and entry prices up to [10^13], the exit
    prices computed on binary64 floats are those of the exact products. *)
Lemma exit_prices_binary64_exact (is_buy : bool) (entry_price : Z) :
  (0 <= entry_price <= 10 ^ 13)%Z ->
  exit_prices_binary64 source_config is_buy entry_price
  = exit_prices source_config is_buy entry_price.
Proof.
  intro H.
  assert (E : entry_price = 0%Z \/ entry_price = 1%Z
              \/ (2 <= entry_price <= 10 ^ 13)%Z) by lia.
  destruct E as [-> | [-> | E]].
  - destruct is_buy; vm_compute; reflexivity.
  - destruct is_buy; vm_compute; reflexivity.
  - unfold exit_prices_binary64, exit_prices, TAKE_PROFIT_PERCENT.
    cbn [source_config STOP_LOSS_PERCENT RISK_REWARD_RATIO].
    assert (H99 : fsub 1 (fdiv 1 100)
                  = (8917127262193582 # 9007199254740992))
      by (vm_compute; reflexivity).
    assert (H102 : fadd 1 (fdiv (fmul 1 2) 100)
                   = (4593671619917906 # 4503599627370496))
      by (vm_compute; reflexivity).
    assert (H101 : fadd 1 (fdiv 1 100)
                   = (4548635623644201 # 4503599627370496))
      by (vm_compute; reflexivity).
    assert (H98 : fsub 1 (fdiv (fmul 1 2) 100)
                  = (8827055269646172 # 9007199254740992))
      by (vm_compute; reflexivity).
    rewrite H99, H102, H101, H98. unfold fmul.
    rewrite (stop_long_agrees _ E), (take_long_agrees _ E),
      (stop_short_agrees _ E), (take_short_agrees _ E).
    rewrite (py_int_exact entry_price 99 (1 - 1 / 100)),
      (py_int_exact entry_price 102 (1 + 1 * 2 / 100)),
      (py_int_exact entry_price 101 (1 + 1 / 100)),
      (py_int_exact entry_price 98 (1 - 1 * 2 / 100));
      try lia; reflexivity.
Qed.

(** ** Sizing on floats *)

Lemma Qlog2_floor_comp (x y : Q) : x == y -> Qlog2_floor x = Qlog2_floor y.
Proof.
  intro H. unfold Qlog2_floor.
  assert (H1 : Qle_bool 1 x = Qle_bool 1 y).
  { destruct (Qle_bool 1 x) eqn:Ex; destruct (Qle_bool 1 y) eqn:Ey;
      try reflexivity.
    - apply Qle_bool_iff in Ex. rewrite H in Ex. apply Qle_bool_iff in Ex.
      congruence.
    - apply Qle_bool_iff in Ey. rewrite <- H in Ey. apply Qle_bool_iff in Ey.
      congruence. }
  rewrite H1. destruct (Qle_bool 1 y).
  - now rewrite (Qfloor_comp _ _ H).
  - assert (H2 : / x == / y) by (now rewrite H).
    now rewrite (Qceiling_comp _ _ H2).
Qed.

Lemma b64_comp (x y : Q) : x == y -> b64 x = b64 y.
Proof.
  intro H. unfold b64.
  assert (H0 : Qeq_bool x 0 = Qeq_bool y 0).
  { destruct (Qeq_bool x 0) eqn:Ex; destruct (Qeq_bool y 0) eqn:Ey;
      try reflexivity.
    - apply Qeq_bool_iff in Ex. rewrite H in Ex. apply Qeq_bool_iff in Ex.
      congruence.
    - apply Qeq_bool_iff in Ey. rewrite <- H in Ey. apply Qeq_bool_iff in Ey.
      congruence. }
  assert (H1 : Qle_bool 0 x = Qle_bool 0 y).
  { destruct (Qle_bool 0 x) eqn:Ex; destruct (Qle_bool 0 y) eqn:Ey;
      try reflexivity.
    - apply Qle_bool_iff in Ex. rewrite H in Ex. apply Qle_bool_iff in Ex.
      congruence.
    - apply Qle_bool_iff in Ey. rewrite <- H in Ey. apply Qle_bool_iff in Ey.
      congruence. }
  rewrite H0, H1. destruct (Qeq_bool y 0); [reflexivity|]. cbv zeta.
  assert (Hm : (if Qle_bool 0 y then x else - x)
               == (if Qle_bool 0 y then y else - y)).
  { destruct (Qle_bool 0 y); now rewrite H. }
  rewrite (Qlog2_floor_comp _ _ Hm).
  set (e := Z.max _ _).
  assert (Hd : x / 2 ^ e == y / 2 ^ e) by (now rewrite H).
  now rewrite (round_half_even_comp _ _ Hd).
Qed.

Lemma tiny_below (x : Q) : 1 # 1000000000 <= x -> 2 ^ (-1022) <= x.
Proof.
  intro H. eapply Qle_trans; [|exact H].
  apply Qle_trans with (2 ^ (-30)).
  - apply Qpower_le_compat_l; [lia|lra].
  - vm_compute. discriminate.
Qed.

(** Rounding to five decimals keeps a float at or above the float 0.001. *)
Lemma py_round_binary64_ge_min (z : Q) :
  b64 (1 # 1000) <= z -> b64 (1 # 1000) <= py_round_binary64 z 5.
Proof.
  intro Hz.
  assert (Hc : b64 (1 # 1000) == 4611686018427388 # 4611686018427387904)
    by (vm_compute; reflexivity).
  unfold py_round_binary64, py_round. cbn [Z.leb Z.compare].
  change (pow10 5) with 100000.
  set (n := round_half_even (z * 100000)).
  assert (Hn : (100 <= n)%Z).
  { eapply Z.le_trans; [|apply round_half_even_ge_floor].
    change 100%Z with (Qfloor 100). apply Qfloor_resp_le. lra. }
  destruct (Z.eq_dec n 100) as [E|E].
  - rewrite E.
    rewrite (b64_comp (inject_Z 100 / 100000) (1 # 1000)) by reflexivity.
    apply Qle_refl.
  - assert (Hn' : 101 <= inject_Z n).
    { change 101 with (inject_Z 101). rewrite <- Zle_Qle. lia. }
    set (y := inject_Z n / 100000).
    assert (Hy : 101 # 100000 <= y).
    { unfold y. apply Qle_shift_div_l; [reflexivity|]. lra. }
    destruct (b64_error y) as [Hlo _].
    { apply tiny_below. lra. }
    lra.
Qed.

(** With the source's settings and a price of at least a millionth the
    divisor of the sizing does not underflow. *)
Lemma sizing_divisor_positive (current_price : Q) :
  1 # 1000000 <= current_price ->
  0 < fdiv (fmul current_price (STOP_LOSS_PERCENT source_config)) 100.
Proof.
  intro Hp. unfold fdiv, fmul. cbn [STOP_LOSS_PERCENT source_config].
  destruct (b64_error (current_price * 1)) as [H1 _].
  { apply tiny_below. lra. }
  set (m := b64 (current_price * 1)) in *.
  destruct (b64_error (m / 100)) as [H2 _].
  { apply tiny_below. apply Qle_shift_div_l; [reflexivity|]. lra. }
  assert (H3 : m / 100 == m * (1 # 100)) by reflexivity.
  lra.
Qed.

Lemma calculate_position_size_binary64_ok (balance current_price : Q) :
  1 # 1000000 <= current_price ->
  let cfg := source_config in
  let risk_amount := fmul balance (fdiv (RISK_PER_TRADE_PERCENT cfg) 100) in
  let quantity :=
    fdiv risk_amount
         (fdiv (fmul current_price (STOP_LOSS_PERCENT cfg)) 100) in
  let minimum := b64 (1 # 1000) in
  let clamped := if Qltb quantity minimum then minimum else quantity in
  calculate_position_size_binary64 cfg balance current_price
  = Ok (py_round_binary64 clamped 5).
Proof.
  intro Hp. cbv zeta.
  pose proof (sizing_divisor_positive current_price Hp) as Hd.
  unfold calculate_position_size_binary64, sizing_try_binary64,
    py_div_binary64.
  assert (H1 : Qeq_bool (STOP_LOSS_PERCENT source_config) 0 = false)
    by reflexivity.
  assert (H2 : Qeq_bool current_price 0 = false).
  { destruct (Qeq_bool current_price 0) eqn:E; [|reflexivity].
    apply Qeq_bool_iff in E. lra. }
  assert (H3 : Qeq_bool
                 (fdiv (fmul current_price (STOP_LOSS_PERCENT source_config))
                       100) 0 = false).
  { set (d := fdiv _ 100) in *.
    destruct (Qeq_bool d 0) eqn:E; [|reflexivity].
    apply Qeq_bool_iff in E. lra. }
  rewrite H1, H2, H3. reflexivity.
Qed.

(** C8 (as the code has it). With the source's settings, a balance of at
    most 10^15 in magnitude and a price between a millionth and 10^15, the
    sizing computes in floats the risk amount [balance * (2/100)] and the
    quantity [risk_amount / (price * 1.0 / 100)], raises the quantity to the
    minimum 0.001 when it is smaller and then rounds it to five decimals,
    which leaves it at or above the minimum. The entry rounds the size it is
    given again, to the asset's size decimals, for the market order. The
    sizing example gives the float 0.04. *)
Theorem position_size_clamped_then_rounded (client : exchange)
    (balance current_price : Q) :
  (- (1000000000000000) <= balance <= 1000000000000000 ->
   1 # 1000000 <= current_price <= 1000000000000000 ->
   let cfg := source_config in
   let risk_amount := fmul balance (fdiv (RISK_PER_TRADE_PERCENT cfg) 100) in
   let quantity :=
     fdiv risk_amount
          (fdiv (fmul current_price (STOP_LOSS_PERCENT cfg)) 100) in
   let minimum := b64 (1 # 1000) in
   let clamped := if Qltb quantity minimum then minimum else quantity in
   calculate_position_size_binary64 cfg balance current_price
   = Ok (py_round_binary64 clamped 5)
   /\ minimum <= py_round_binary64 clamped 5
   /\ (quantity < minimum -> py_round_binary64 clamped 5 == minimum))
  /\
  (forall cfg is_buy asset position_size w info,
      fst (get_market_info client asset w) = Ok info ->
      Qle_bool position_size 0 = false ->
      exists rest,
        calls (snd (place_trade cfg client is_buy asset position_size w))
        = calls w
          ++ [CMeta;
              CMarketOpen asset is_buy
                          (py_round position_size (szDecimals info))]
          ++ rest)
  /\
  (exists size,
      calculate_position_size_binary64 source_config 1000 50000 = Ok size /\
      size == b64 (4 # 100) /\ py_round size 5 == 4 # 100).
Proof.
  split; [|split].
  - intros _ [Hp _]. cbv zeta. split; [|split].
    + now apply calculate_position_size_binary64_ok.
    + apply py_round_binary64_ge_min.
      destruct (Qltb _ (b64 (1 # 1000))) eqn:E; [apply Qle_refl|].
      apply Qltb_ge in E. exact E.
    + intro Hq. apply Qltb_lt in Hq. rewrite Hq. vm_compute. reflexivity.
  - intros cfg is_buy asset position_size w info Hinfo Hpos.
    rewrite place_trade_enter. apply enter_market_order; assumption.
  - eexists. split; [vm_compute; reflexivity|]. split; vm_compute; reflexivity.
Qed.

Lemma position_size_clamped_then_rounded_witness :
  exists size,
    calculate_position_size_binary64 source_config 20 50000 = Ok size /\
    b64 (1 # 1000) <= size.
Proof.
  pose proof (proj1 (position_size_clamped_then_rounded
                       (accepting 20 50000 5) 20 50000)) as H.
  cbv zeta in H. destruct H as (H1 & H2 & _).
  - split; vm_compute; discriminate.
  - split; vm_compute; discriminate.
  - eexists. split; [exact H1|exact H2].
Defined.

(** The sizes the interpreter prints: the quotient for a balance of
    1000.125 is just above 0.040005 and is rounded up; a size of 0.12345,
    as a float, is above the tie and goes out as 0.1235 on an asset with
    four size decimals; a price so small that the divisor underflows makes
    the division raise, and the handler then fails on its unbound name. *)
Example sizing_binary64_examples :
  calculate_position_size_binary64 source_config (b64 (1000125 # 1000)) 50000
  = Ok (b64 (4001 # 100000)) /\
  calculate_position_size source_config (b64 (1000125 # 1000)) 50000
  = Ok (py_round (4 # 100) 5) /\
  (exists size sz rest,
      calculate_position_size_binary64 source_config (b64 (308625 # 100)) 50000
      = Ok size /\
      size == b64 (12345 # 100000) /\
      calls (snd (buy source_config (accepting (308625 # 100) 50000 4)
                      "BTC" size world_full))
      = CMeta :: CMarketOpen "BTC" true sz :: rest /\
      sz == 1235 # 10000) /\
  calculate_position_size_binary64 source_config 1000 (2 ^ (-1070))
  = Raise (UnboundLocalError "min_position_size").
Proof.
  split; [vm_compute; reflexivity|].
  split; [vm_compute; reflexivity|].
  split; [|vm_compute; reflexivity].
  eexists. eexists. eexists.
  split; [vm_compute; reflexivity|].
  split; [vm_compute; reflexivity|].
  split; [vm_compute; reflexivity|]. reflexivity.
Qed.

(** X8. With the source's settings, a balance of at most 10^15 in magnitude
    and a price between a millionth and 10^15 the sizing returns a size.
    When the float quantity is at least the minimum 0.001 the size is the
    quantity rounded to five decimals and then to a float: within half a
    unit of the fifth decimal and one float rounding of the quantity. When
    the quantity is below the minimum the size is the minimum, whatever the
    balance. *)
Theorem sizing_within_rounding_or_minimum (balance current_price : Q) :
  - (1000000000000000) <= balance <= 1000000000000000 ->
  1 # 1000000 <= current_price <= 1000000000000000 ->
  let cfg := source_config in
  let quantity :=
    fdiv (fmul balance (fdiv (RISK_PER_TRADE_PERCENT cfg) 100))
         (fdiv (fmul current_price (STOP_LOSS_PERCENT cfg)) 100) in
  let minimum := b64 (1 # 1000) in
  let ulp := 1 # 9007199254740992 in
  exists size,
    calculate_position_size_binary64 cfg balance current_price = Ok size /\
    (minimum <= quantity ->
     (quantity - (1 # 200000)) * (1 - ulp) <= size /\
     size <= (quantity + (1 # 200000)) * (1 + ulp)) /\
    (quantity < minimum -> size == minimum).
Proof.
  intros _ [Hp _]. cbv zeta.
  rewrite (calculate_position_size_binary64_ok balance current_price Hp).
  cbv zeta. eexists. split; [reflexivity|]. split.
  - intro Hq. pose proof Hq as Hq'. apply Qltb_ge in Hq'. rewrite Hq'.
    set (q := fdiv _ _) in *.
    assert (Hc : b64 (1 # 1000) == 4611686018427388 # 4611686018427387904)
      by (vm_compute; reflexivity).
    unfold py_round_binary64.
    destruct (py_round_5_close q) as [H1 H2].
    destruct (b64_error (py_round q 5)) as [H3 H4].
    { apply tiny_below. lra. }
    split; lra.
  - intro Hq. apply Qltb_lt in Hq. rewrite Hq. vm_compute. reflexivity.
Qed.

Lemma sizing_within_rounding_or_minimum_witness :
  exists size,
    calculate_position_size_binary64 source_config (1 # 2) 50000 = Ok size /\
    size == b64 (1 # 1000).
Proof.
  pose proof (sizing_within_rounding_or_minimum (1 # 2) 50000) as H.
  cbv zeta in H. destruct H as (size & Hsize & _ & Hmin).
  - split; vm_compute; discriminate.
  - split; vm_compute; discriminate.
  - exists size. split; [exact Hsize|]. apply Hmin. vm_compute. reflexivity.
Defined.

(** ** The exit prices of a filled entry *)

(** C7. With the source's settings, once the entry is filled at [avgPx] the
    exits are priced from [entry = int(avgPx)], for an entry price of at
    most 10^13: the float computations of [buy] and [sell] give the
    truncations of the exact products. With [S = 1] and [T = S * 2], a long
    entry sends its stop-loss at [int(entry * (1 - S/100))] and its
    take-profit at [int(entry * (1 + T/100))]; a short entry sends its
    stop-loss at [int(entry * (1 + S/100))] and its take-profit at
    [int(entry * (1 - T/100))]. The prices are integers ([limit_px] and
    [triggerPx] of the same order agree), and no other exit order is
    sent. *)
Theorem exit_prices_from_truncated_entry (client : exchange)
    (is_buy : bool) (asset : string) (position_size : Q) (w : world)
    (sz : Q) (entry : Z) :
  entry_filled client is_buy asset position_size w sz entry ->
  (0 <= entry <= 10 ^ 13)%Z ->
  let cfg := source_config in
  let S := STOP_LOSS_PERCENT cfg in
  let T := S * RISK_REWARD_RATIO cfg in
  let stop :=
    if is_buy then py_int (inject_Z entry * (1 - S / 100))
    else py_int (inject_Z entry * (1 + S / 100)) in
  let take :=
    if is_buy then py_int (inject_Z entry * (1 + T / 100))
    else py_int (inject_Z entry * (1 - T / 100)) in
  let run := place_trade cfg client is_buy asset position_size w in
  (exists o avgPx rest,
      market_open client (calls w ++ [CMeta]) asset is_buy sz = Ok o /\
      statuses o = Some (Filled avgPx :: rest) /\ entry = py_int avgPx)
  /\
  exit_prices_binary64 cfg is_buy entry = (stop, take)
  /\
  exists exits,
    calls (snd run) = calls w ++ [CMeta; CMarketOpen asset is_buy sz] ++ exits /\
    (exits = [stop_loss_call asset is_buy sz stop] \/
     exits = [stop_loss_call asset is_buy sz stop;
              take_profit_call asset is_buy sz take]) /\
    (fst run = Ok true ->
     exits = [stop_loss_call asset is_buy sz stop;
              take_profit_call asset is_buy sz take]).
Proof.
  intros H Hrange. cbv zeta.
  assert (Hexact : exit_prices source_config is_buy entry
                   = (if is_buy
                      then py_int (inject_Z entry
                                   * (1 - STOP_LOSS_PERCENT source_config / 100))
                      else py_int (inject_Z entry
                                   * (1 + STOP_LOSS_PERCENT source_config / 100)),
                      if is_buy
                      then py_int (inject_Z entry
                                   * (1 + STOP_LOSS_PERCENT source_config
                                          * RISK_REWARD_RATIO source_config / 100))
                      else py_int (inject_Z entry
                                   * (1 - STOP_LOSS_PERCENT source_config
                                          * RISK_REWARD_RATIO source_config / 100))))
    by (destruct is_buy; reflexivity).
  split; [|split].
  - destruct H as (info & o & _ & _ & _ & Ho & He).
    destruct (entry_price_of_filled o entry He) as (_ & avgPx & rest & Hst & E).
    now exists o, avgPx, rest.
  - rewrite <- Hexact. now apply exit_prices_binary64_exact.
  - rewrite place_trade_enter.
    destruct (enter_filled_calls source_config _ _ _ _ _ _ _ H)
      as (_ & exits & Hcalls & Hcase).
    exists exits. split; [exact Hcalls|].
    rewrite Hexact in Hcase. cbn [fst snd] in Hcase.
    destruct Hcase as [(_ & -> & Hr)|(_ & -> & Hr)].
    + split; [now left|]. rewrite Hr. discriminate.
    + split; [now right|]. reflexivity.
Qed.

Lemma exit_prices_from_truncated_entry_witness :
  exit_prices_binary64 source_config false 50000 = (50500, 49000)%Z /\
  exists exits,
    calls (snd (place_trade source_config (accepting 1000 (500007 # 10) 5)
                            false "BTC" (4 # 100) world_full))
    = calls world_full
      ++ [CMeta; CMarketOpen "BTC" false (py_round (4 # 100) 5)] ++ exits /\
    (exits = [stop_loss_call "BTC" false (py_round (4 # 100) 5) 50500] \/
     exits = [stop_loss_call "BTC" false (py_round (4 # 100) 5) 50500;
              take_profit_call "BTC" false (py_round (4 # 100) 5) 49000]).
Proof.
  destruct (exit_prices_from_truncated_entry
              (accepting 1000 (500007 # 10) 5) false "BTC" (4 # 100) world_full
              (py_round (4 # 100) 5) 50000%Z)
    as (_ & Hprices & exits & Hcalls & Hex & _).
  - entry_is_filled 5%Z (500007 # 10).
  - lia.
  - split; [exact Hprices|].
    exists exits. split; [exact Hcalls|exact Hex].
Defined.

(** Outside these settings and this range the float computation leaves the
    exact products: with a stop-loss of 0.1% the short stop for an entry at
    50000 is computed as 50049.999999999993 and sent as 50049, and with the
    source's settings the long stop for an entry at 10^15 + 1 is one above
    the truncated exact product. *)
Example exit_prices_binary64_examples :
  exit_prices_binary64 tenth_percent_config false 50000 = (50049, 49900)%Z /\
  py_int (50000 * (1 + (1 # 10) / 100)) = 50050%Z /\
  exit_prices_binary64 source_config true (10 ^ 15 + 1)
  = (990000000000001, 1020000000000001)%Z /\
  exit_prices source_config true (10 ^ 15 + 1)
  = (990000000000000, 1020000000000001)%Z.
Proof. repeat split; vm_compute; reflexivity. Qed.

(** ** The breakout decision of a cycle *)




(** The worked example of the specification on whole cycles: with a flat
    account, the channel from 90 to 110 and a balance of 1000, a price of
    111 makes the cycle buy and a price of 89 makes it sell; prices of 100,
    110 and 90 only slide the window. *)
Example breakout_examples :
  let cycle p :=
    snd (run_trading_strategy source_config (accepting 1000 p 5) "BTC" 20
                              "0xabc" world_channel) in
  let entries p := filter is_market_order (calls (cycle p)) in
  (exists sz, entries 111 = [CMarketOpen "BTC" true sz]) /\
  (exists sz, entries 89 = [CMarketOpen "BTC" false sz]) /\
  entries 100 = [] /\ entries 110 = [] /\ entries 90 = [] /\
  items (last_prices (cycle 111)) = [111] /\
  items (last_prices (cycle 110))
  = [90; 100; 110; 100; 100; 100; 100; 100; 100; 100; 100; 110].
Proof.
  cbv zeta. repeat split; try (eexists; vm_compute; reflexivity);
    vm_compute; reflexivity.
Qed.
